(** * GLC: a shallow embedding of [glc.h] (OpenGL Common function library)

    [glc.h] is a thin layer over libc and the OpenGL driver.  Everything it
    does is a call to one of the two, so the embedding is a state-and-trace
    monad: the libc side (files on disk, open [FILE] streams, the heap) is a
    concrete state, every external call is appended to a trace with its
    arguments and its result, and the answers of the driver, which the
    wrapper cannot predict, come from an oracle that sees the whole history
    of calls made so far. *)

From Stdlib Require Import ZArith Lia.
From Stdlib Require Import Floats.SpecFloat.
From Stdlib Require Import Strings.Byte.
From stdpp Require Import base gmap strings list.

Local Open Scope Z_scope.

(** ** C integers *)

Definition INT_MAX : Z := 2147483647.

(** [int] arithmetic as compilers implement it: two's complement on 32 bits. *)
Definition wrap_int (z : Z) : Z := (z + 2 ^ 31) mod 2 ^ 32 - 2 ^ 31.
Definition wrap_uint (z : Z) : Z := z mod 2 ^ 32.

Definition NULL : Z := 0.
Definition EOF : Z := -1.
Definition SEEK_SET : Z := 0.
Definition SEEK_CUR : Z := 1.
Definition SEEK_END : Z := 2.

Definition sizeof_char : Z := 1.
Definition sizeof_GLfloat : Z := 4.
Definition sizeof_GLint : Z := 4.
Definition sizeof_GLuint : Z := 4.

Definition nl : string := String (Ascii.ascii_of_nat 10) EmptyString.

(** ** Floating-point values

    A [double] travels through the variadic argument list and is narrowed to
    a [GLfloat] (IEEE binary32) by a cast. *)

Definition double : Type := spec_float.
Definition GLfloat : Type := spec_float.

Definition GLfloat_of_double (d : double) : GLfloat :=
  match d with
  | S754_finite s m e => binary_round 24 128 s m e
  | _ => d
  end.

(** ** Memory values

    Blocks are byte-granular.  A 4-byte scalar written through a typed
    pointer occupies four cells, each remembering which fragment of which
    scalar it holds. *)

Inductive scalar :=
| SFloat (f : GLfloat)
| SInt (i : Z)
| SUInt (u : Z).

Inductive memval :=
| MUndef
| MByte (b : byte)
| MFrag (v : scalar) (k : nat).

(** ** The calls the wrapper can make *)

(** The twelve vector upload entry points and the three matrix ones. *)
Inductive uniform_fn :=
| Uniform1fv | Uniform1iv | Uniform1uiv
| Uniform2fv | Uniform2iv | Uniform2uiv
| Uniform3fv | Uniform3iv | Uniform3uiv
| Uniform4fv | Uniform4iv | Uniform4uiv.

Inductive matrix_fn := UniformMatrix2fv | UniformMatrix3fv | UniformMatrix4fv.

Inductive sink := stderr.

(** Arguments of a [fprintf] after the format. *)
Inductive parg := PStr (s : string) | PInt (z : Z).

Inductive Call :=
(* libc *)
| Fopen (filename mode : string) (ret : Z)
| Fclose (stream : Z)
| Fgetc (stream : Z) (ret : Z)
| Fseek (stream offset whence : Z) (ret : Z)
| Fread (ptr size nmemb stream : Z) (ret : Z)
| Calloc (nmemb size : Z) (ret : Z)
| Malloc (size : Z) (ret : Z)
| Free (ptr : Z)
| Fprintf (out : sink) (format : string) (args : list parg)
(* shader and program objects *)
| CreateShader (type : Z) (ret : Z)
| ShaderSource (shader count : Z) (strings : list (list byte))
| CompileShader (shader : Z)
| GetShaderiv (shader pname : Z) (ret : Z)
| GetShaderInfoLog (shader bufSize : Z) (ret : string)
| DeleteShader (shader : Z)
| CreateProgram (ret : Z)
| AttachShader (program shader : Z)
| LinkProgram (program : Z)
| GetProgramiv (program pname : Z) (ret : Z)
| GetProgramInfoLog (program bufSize : Z) (ret : string)
(* uniforms; [seen] is the block behind [value] when the call is issued *)
| GetUniformLocation (program : Z) (name : string) (ret : Z)
| UseProgram (program : Z)
| Uniform (fn : uniform_fn) (location count value : Z)
          (seen : option (list memval))
| UniformMatrix (fn : matrix_fn) (location count transpose value : Z)
                (seen : option (list memval)).

(** ** The environment *)

(** Constants of the OpenGL header, which [glc.h] requires to be included
    first.  They are parameters of the development. *)
Class GLHeader := {
  GL_FLOAT : Z;
  GL_INT : Z;
  GL_UNSIGNED_INT : Z;
  GL_VERTEX_SHADER : Z;
  GL_FRAGMENT_SHADER : Z;
  GL_COMPILE_STATUS : Z;
  GL_LINK_STATUS : Z
}.

(** What the driver answers, given every call made so far, and whether the
    allocator grants a request, given the live blocks. *)
Class Environment := {
  drv_CreateShader : list Call → Z → Z;
  drv_GetShaderiv : list Call → Z → Z → Z;
  drv_GetShaderInfoLog : list Call → Z → string;
  drv_CreateProgram : list Call → Z;
  drv_GetProgramiv : list Call → Z → Z → Z;
  drv_GetProgramInfoLog : list Call → Z → string;
  drv_GetUniformLocation : list Call → Z → string → Z;
  alloc_ok : gmap Z (list memval) → Z → bool
}.

(** ** The world *)

Record FILE := mkFILE { content : list byte; pos : nat }.

Record World := mkWorld {
  disk : gmap string (list byte);   (* readable files, by path *)
  streams : gmap Z FILE;            (* open streams, by [FILE*] *)
  heap : gmap Z (list memval);      (* live malloc/calloc blocks *)
  objs : gmap Z Z;                  (* the caller's [GLuint] objects *)
  trace : list Call                 (* calls made, oldest first *)
}.

Definition set_streams (f : gmap Z FILE → gmap Z FILE) (w : World) : World :=
  mkWorld (disk w) (f (streams w)) (heap w) (objs w) (trace w).
Definition set_heap (f : gmap Z (list memval) → gmap Z (list memval))
    (w : World) : World :=
  mkWorld (disk w) (streams w) (f (heap w)) (objs w) (trace w).
Definition set_objs (f : gmap Z Z → gmap Z Z) (w : World) : World :=
  mkWorld (disk w) (streams w) (heap w) (f (objs w)) (trace w).
Definition log (c : Call) (w : World) : World :=
  mkWorld (disk w) (streams w) (heap w) (objs w) (trace w ++ [c]).

(** ** The monad: state, undefined behaviour, and fuel for the one
    unbounded loop *)

Inductive Res (A : Type) :=
| Undefined
| OutOfFuel
| Done (a : A) (w : World).
Arguments Undefined {A}.
Arguments OutOfFuel {A}.
Arguments Done {A} a w.

Definition M (A : Type) : Type := World → Res A.

#[global] Instance M_ret : MRet M := λ A a w, Done a w.
#[global] Instance M_bind : MBind M := λ A B f m w,
  match m w with
  | Undefined => Undefined
  | OutOfFuel => OutOfFuel
  | Done a w' => f a w'
  end.

Definition undefined {A} : M A := λ _, Undefined.
Definition out_of_fuel {A} : M A := λ _, OutOfFuel.

(** [do body while (cond)] over a loop-carried value. *)
Fixpoint do_while {A} (fuel : nat) (body : A → M A) (cond : M bool) (a : A)
    : M A :=
  match fuel with
  | O => out_of_fuel
  | S fuel' =>
      a' ← body a;
      c ← cond;
      if c : bool then do_while fuel' body cond a' else mret a'
  end.

(** [for (i = start; i < start + n; i++) body] over a loop-carried value. *)
Fixpoint for_loop {A} (n : nat) (i : Z) (body : Z → A → M A) (a : A) : M A :=
  match n with
  | O => mret a
  | S n' => a' ← body i a; for_loop n' (i + 1) body a'
  end.

(** ** libc *)

Section Libc.
Context {env : Environment}.

(** A pointer that is neither [NULL] nor in use. *)
Definition fresh_ptr {V} (m : gmap Z V) : Z := fresh ({[NULL]} ∪ dom m).

Definition fopen (filename mode : string) : M Z := λ w,
  match disk w !! filename with
  | None => Done NULL (log (Fopen filename mode NULL) w)
  | Some bytes =>
      let f := fresh_ptr (streams w) in
      Done f (log (Fopen filename mode f)
                (set_streams <[f := mkFILE bytes 0]> w))
  end.

Definition fclose (stream : Z) : M unit := λ w,
  match streams w !! stream with
  | None => Undefined
  | Some _ => Done tt (log (Fclose stream) (set_streams (delete stream) w))
  end.

(** The next byte as an [unsigned char] converted to [int], or [EOF]. *)
Definition fgetc (stream : Z) : M Z := λ w,
  match streams w !! stream with
  | None => Undefined
  | Some f =>
      match content f !! pos f with
      | Some b =>
          let c := Z.of_N (Byte.to_N b) in
          Done c (log (Fgetc stream c)
                    (set_streams <[stream := mkFILE (content f) (S (pos f))]> w))
      | None => Done EOF (log (Fgetc stream EOF) w)
      end
  end.

Definition fseek (stream offset whence : Z) : M Z := λ w,
  match streams w !! stream with
  | None => Undefined
  | Some f =>
      let base :=
        if whence =? SEEK_SET then 0
        else if whence =? SEEK_CUR then Z.of_nat (pos f)
        else Z.of_nat (length (content f)) in
      if (base + offset <? 0)
         || negb ((whence =? SEEK_SET) || (whence =? SEEK_CUR)
                  || (whence =? SEEK_END))
      then Done (-1) (log (Fseek stream offset whence (-1)) w)
      else
        Done 0 (log (Fseek stream offset whence 0)
                  (set_streams
                     <[stream := mkFILE (content f) (Z.to_nat (base + offset))]> w))
  end.

(** An [int] passed where a [size_t] is expected. *)
Definition size_t_of_int (n : Z) : Z := n mod 2 ^ 64.

Definition calloc (nmemb size : Z) : M Z := λ w,
  let n := size_t_of_int nmemb * size in
  if alloc_ok (heap w) n then
    let p := fresh_ptr (heap w) in
    Done p (log (Calloc nmemb size p)
              (set_heap <[p := replicate (Z.to_nat n) (MByte x00)]> w))
  else Done NULL (log (Calloc nmemb size NULL) w).

Definition malloc (size : Z) : M Z := λ w,
  if alloc_ok (heap w) size then
    let p := fresh_ptr (heap w) in
    Done p (log (Malloc size p)
              (set_heap <[p := replicate (Z.to_nat size) MUndef]> w))
  else Done NULL (log (Malloc size NULL) w).

Definition free (ptr : Z) : M unit := λ w,
  if ptr =? NULL then Done tt (log (Free ptr) w)
  else
    match heap w !! ptr with
    | None => Undefined
    | Some _ => Done tt (log (Free ptr) (set_heap (delete ptr) w))
    end.

(** Reads up to [nmemb] elements of [size] bytes to the start of the block
    at [ptr], which must have room for all of them; returns the number of
    complete elements read. *)
Definition fread (ptr size nmemb stream : Z) : M Z := λ w,
  match streams w !! stream, heap w !! ptr with
  | Some f, Some blk =>
      let want := Z.to_nat (size * size_t_of_int nmemb) in
      let got := take want (drop (pos f) (content f)) in
      if (want <=? length blk)%nat then
        let n := Z.of_nat (length got) / size in
        Done n (log (Fread ptr size nmemb stream n)
                  (set_heap <[ptr := (MByte <$> got) ++ drop (length got) blk]>
                     (set_streams
                        <[stream := mkFILE (content f) (pos f + length got)]> w)))
      else Undefined
  | _, _ => Undefined
  end.

Definition fprintf (out : sink) (format : string) (args : list parg) : M unit :=
  λ w, Done tt (log (Fprintf out format args) w).

(** The text a reader of a null-terminated string finds in a block. *)
Fixpoint c_string (blk : list memval) : option (list byte) :=
  match blk with
  | MByte b :: rest =>
      if Byte.eqb b x00 then Some [] else cons b <$> c_string rest
  | _ => None
  end.

(** Typed stores of 4-byte scalars, [((T* )data)[i] = v]. *)
Definition store4 (data i : Z) (v : scalar) : M unit := λ w,
  match heap w !! data with
  | None => Undefined
  | Some blk =>
      let o := Z.to_nat (4 * i) in
      if (0 <=? i) && (o + 4 <=? length blk)%nat then
        Done tt (set_heap
                   <[data := take o blk ++ [MFrag v 0; MFrag v 1; MFrag v 2; MFrag v 3]
                               ++ drop (o + 4) blk]> w)
      else Undefined
  end.

(** The caller's [GLuint] behind a pointer. *)
Definition load_GLuint (p : Z) : M Z := λ w,
  match objs w !! p with
  | None => Undefined
  | Some v => Done v w
  end.

Definition store_GLuint (p v : Z) : M unit := λ w,
  match objs w !! p with
  | None => Undefined
  | Some _ => Done tt (set_objs <[p := v]> w)
  end.

End Libc.

(** ** Variadic arguments *)

Inductive va_slot :=
| VaDouble (d : double)
| VaInt (bits : Z).

(** [va_arg(vl, T)]: the value and the rest of the list. *)
Definition va_arg_double (vl : list va_slot) : M (double * list va_slot) :=
  match vl with
  | VaDouble d :: vl' => mret (d, vl')
  | _ => undefined
  end.

Definition va_arg_int (vl : list va_slot) : M (Z * list va_slot) :=
  match vl with
  | VaInt z :: vl' => mret (wrap_int z, vl')
  | _ => undefined
  end.

Definition va_arg_unsigned (vl : list va_slot) : M (Z * list va_slot) :=
  match vl with
  | VaInt z :: vl' => mret (wrap_uint z, vl')
  | _ => undefined
  end.

(** ** The driver's entry points *)

Section GL.
Context {env : Environment}.

Definition glCreateShader (type : Z) : M Z := λ w,
  let r := drv_CreateShader (trace w) type in
  Done r (log (CreateShader type r) w).

(** [string] is the array of [count] pointers; with [length] null every
    string is read up to its terminator, the only form the wrapper uses. *)
Definition glShaderSource (shader count : Z) (string : list Z) (length : Z)
    : M unit := λ w,
  if length =? NULL then
    match mapM (λ p, heap w !! p ≫= c_string) (take (Z.to_nat count) string) with
    | Some texts => Done tt (log (ShaderSource shader count texts) w)
    | None => Undefined
    end
  else Undefined.

Definition glCompileShader (shader : Z) : M unit := λ w,
  Done tt (log (CompileShader shader) w).

Definition glGetShaderiv (shader pname : Z) : M Z := λ w,
  let r := drv_GetShaderiv (trace w) shader pname in
  Done r (log (GetShaderiv shader pname r) w).

(** At most [bufSize - 1] characters of the log reach the buffer. *)
Definition glGetShaderInfoLog (shader bufSize : Z) : M string := λ w,
  let r := String.substring 0 (Z.to_nat (bufSize - 1))
             (drv_GetShaderInfoLog (trace w) shader) in
  Done r (log (GetShaderInfoLog shader bufSize r) w).

Definition glDeleteShader (shader : Z) : M unit := λ w,
  Done tt (log (DeleteShader shader) w).

Definition glCreateProgram : M Z := λ w,
  let r := drv_CreateProgram (trace w) in
  Done r (log (CreateProgram r) w).

Definition glAttachShader (program shader : Z) : M unit := λ w,
  Done tt (log (AttachShader program shader) w).

Definition glLinkProgram (program : Z) : M unit := λ w,
  Done tt (log (LinkProgram program) w).

Definition glGetProgramiv (program pname : Z) : M Z := λ w,
  let r := drv_GetProgramiv (trace w) program pname in
  Done r (log (GetProgramiv program pname r) w).

Definition glGetProgramInfoLog (program bufSize : Z) : M string := λ w,
  let r := String.substring 0 (Z.to_nat (bufSize - 1))
             (drv_GetProgramInfoLog (trace w) program) in
  Done r (log (GetProgramInfoLog program bufSize r) w).

Definition glGetUniformLocation (program : Z) (name : string) : M Z := λ w,
  let r := drv_GetUniformLocation (trace w) program name in
  Done r (log (GetUniformLocation program name r) w).

Definition glUseProgram (program : Z) : M unit := λ w,
  Done tt (log (UseProgram program) w).

Definition glUniform (fn : uniform_fn) (location count value : Z) : M unit :=
  λ w, Done tt (log (Uniform fn location count value (heap w !! value)) w).

Definition glUniformMatrix (fn : matrix_fn) (location count transpose value : Z)
    : M unit :=
  λ w, Done tt (log (UniformMatrix fn location count transpose value
                       (heap w !! value)) w).

Definition glUniform1fv := glUniform Uniform1fv.
Definition glUniform1iv := glUniform Uniform1iv.
Definition glUniform1uiv := glUniform Uniform1uiv.
Definition glUniform2fv := glUniform Uniform2fv.
Definition glUniform2iv := glUniform Uniform2iv.
Definition glUniform2uiv := glUniform Uniform2uiv.
Definition glUniform3fv := glUniform Uniform3fv.
Definition glUniform3iv := glUniform Uniform3iv.
Definition glUniform3uiv := glUniform Uniform3uiv.
Definition glUniform4fv := glUniform Uniform4fv.
Definition glUniform4iv := glUniform Uniform4iv.
Definition glUniform4uiv := glUniform Uniform4uiv.
Definition glUniformMatrix2fv := glUniformMatrix UniformMatrix2fv.
Definition glUniformMatrix3fv := glUniformMatrix UniformMatrix3fv.
Definition glUniformMatrix4fv := glUniformMatrix UniformMatrix4fv.

End GL.

(** ** glc.h *)

Section GLC.
Context {hdr : GLHeader} {env : Environment}.

(** [glcMakeShaderProgram()], returns 1 (success) or -1 (failure).
    [program] points to the caller's handle; [fuel] bounds the two
    byte-counting loops. *)
Definition glcMakeShaderProgram (fuel : nat) (program : Z)
    (vertexShaderPath fragmentShaderPath : string) : M Z :=
  let length := 0 in
  vertexFile ← fopen vertexShaderPath "rb";
  if vertexFile =? NULL then
    (fprintf stderr ("Error opening vertex shader: %s" +:+ nl)
       [PStr vertexShaderPath];;
     mret (-1))
  else
  fragmentFile ← fopen fragmentShaderPath "rb";
  if fragmentFile =? NULL then
    (fprintf stderr ("Error opening fragment shader: %s" +:+ nl)
       [PStr fragmentShaderPath];;
     fclose vertexFile;;
     mret (-1))
  else
  (* Compile Vertex Shader *)
  length ← do_while fuel (λ length, mret (wrap_int (length + 1)))
             (c ← fgetc vertexFile; mret (negb (c =? EOF))) length;
  fseek vertexFile 0 SEEK_SET;;
  source ← calloc (wrap_int (length + 1)) sizeof_char;
  fread source sizeof_char length vertexFile;;
  vertexShader ← glCreateShader GL_VERTEX_SHADER;
  if vertexShader =? 0 then
    (fprintf stderr ("Error creating vertex shader object." +:+ nl) [];;
     fclose vertexFile;; fclose fragmentFile;;
     free source;;
     mret (-1))
  else
  glShaderSource vertexShader 1 [source] NULL;;
  glCompileShader vertexShader;;
  success ← glGetShaderiv vertexShader GL_COMPILE_STATUS;
  if success =? 0 then
    (infoLog ← glGetShaderInfoLog vertexShader 512;
     fprintf stderr ("Vertex shader compilation error!" +:+ nl +:+ "%s" +:+ nl)
       [PStr infoLog];;
     fclose vertexFile;; fclose fragmentFile;;
     free source;;
     mret (-1))
  else
  free source;;
  (* Compile Fragment Shader *)
  let length := 0 in
  length ← do_while fuel (λ length, mret (wrap_int (length + 1)))
             (c ← fgetc fragmentFile; mret (negb (c =? EOF))) length;
  fseek fragmentFile 0 SEEK_SET;;
  source ← calloc (wrap_int (length + 1)) sizeof_char;
  fread source sizeof_char length fragmentFile;;
  fragmentShader ← glCreateShader GL_FRAGMENT_SHADER;
  if fragmentShader =? 0 then
    (fprintf stderr ("Error creating fragment shader object." +:+ nl) [];;
     fclose vertexFile;; fclose fragmentFile;;
     free source;;
     mret (-1))
  else
  glShaderSource fragmentShader 1 [source] NULL;;
  glCompileShader fragmentShader;;
  success ← glGetShaderiv fragmentShader GL_COMPILE_STATUS;
  if success =? 0 then
    (infoLog ← glGetShaderInfoLog fragmentShader 512;
     fprintf stderr ("Fragment shader compilation error!" +:+ nl +:+ "%s" +:+ nl)
       [PStr infoLog];;
     fclose vertexFile;; fclose fragmentFile;;
     free source;;
     mret (-1))
  else
  fclose vertexFile;; fclose fragmentFile;;
  free source;;
  (* Create Shader Program *)
  h ← glCreateProgram; store_GLuint program h;;
  p ← load_GLuint program;
  if p =? 0 then
    (fprintf stderr ("Error creating shader program object." +:+ nl) [];;
     mret (-1))
  else
  p ← load_GLuint program; glAttachShader p vertexShader;;
  p ← load_GLuint program; glAttachShader p fragmentShader;;
  p ← load_GLuint program; glLinkProgram p;;
  p ← load_GLuint program; success ← glGetProgramiv p GL_LINK_STATUS;
  if success =? 0 then
    (p ← load_GLuint program; infoLog ← glGetProgramInfoLog p 512;
     fprintf stderr ("Shader program linking error!" +:+ nl +:+ "%s" +:+ nl)
       [PStr infoLog];;
     mret (-1))
  else
  (* cleanup *)
  glDeleteShader vertexShader;;
  glDeleteShader fragmentShader;;
  mret 1.

(** [glcSetUniformx()], returns 1 (success) or -1 (failure).  [vl] is the
    variadic tail of the call. *)
Definition glcSetUniformx (program : Z) (name : string) (type dimension : Z)
    (vl : list va_slot) : M Z :=
  if (dimension <? 1) || (dimension >? 4) then
    (fprintf stderr ("Dimension invalid. Must be 1-4. Got %d." +:+ nl)
       [PInt dimension];;
     mret (-1))
  else
  location ← glGetUniformLocation program name;
  if location =? -1 then
    (fprintf stderr ("Uniform name invalid: %s" +:+ nl) [PStr name];;
     mret (-1))
  else
  glUseProgram program;;
  (* va_start(vl, dimension) *)
  data ← malloc (if type =? GL_FLOAT then sizeof_GLfloat * dimension
                 else if type =? GL_INT then sizeof_GLint * dimension
                 else sizeof_GLuint * dimension);
  if data =? NULL then
    (fprintf stderr ("Error allocating memory when setting uniform." +:+ nl) [];;
     (* va_end(vl) *)
     mret (-1))
  else
  vl ← for_loop (Z.to_nat dimension) 0 (λ i vl,
         if type =? GL_FLOAT then
           '(d, vl) ← va_arg_double vl;
           store4 data i (SFloat (GLfloat_of_double d));; mret vl
         else if type =? GL_INT then
           '(v, vl) ← va_arg_int vl;
           store4 data i (SInt v);; mret vl
         else
           '(v, vl) ← va_arg_unsigned vl;
           store4 data i (SUInt v);; mret vl) vl;
  (* va_end(vl) *)
  (if dimension =? 1 then
     if type =? GL_FLOAT then glUniform1fv location 1 data
     else if type =? GL_INT then glUniform1iv location 1 data
     else glUniform1uiv location 1 data
   else if dimension =? 2 then
     if type =? GL_FLOAT then glUniform2fv location 1 data
     else if type =? GL_INT then glUniform2iv location 1 data
     else glUniform2uiv location 1 data
   else if dimension =? 3 then
     if type =? GL_FLOAT then glUniform3fv location 1 data
     else if type =? GL_INT then glUniform3iv location 1 data
     else glUniform3uiv location 1 data
   else
     if type =? GL_FLOAT then glUniform4fv location 1 data
     else if type =? GL_INT then glUniform4iv location 1 data
     else glUniform4uiv location 1 data);;
  free data;;
  mret 1.

(** [glcSetUniformxv()], returns 1 (success) or -1 (failure).  [uniform]
    points to the caller's contiguous values. *)
Definition glcSetUniformxv (program : Z) (name : string)
    (type dimension amount uniform : Z) : M Z :=
  if (dimension <? 1) || (dimension >? 4) then
    (fprintf stderr ("Dimension invalid. Must be 1-4. Got %d." +:+ nl)
       [PInt dimension];;
     mret (-1))
  else
  if amount <=? 0 then
    (fprintf stderr ("Amount invalid. Must be larger than 0. Got %d" +:+ nl)
       [PInt amount];;
     mret (-1))
  else
  location ← glGetUniformLocation program name;
  if location =? -1 then
    (fprintf stderr ("Uniform name invalid: %s" +:+ nl) [PStr name];;
     mret (-1))
  else
  glUseProgram program;;
  (if dimension =? 1 then
     if type =? GL_FLOAT then glUniform1fv location amount uniform
     else if type =? GL_INT then glUniform1iv location amount uniform
     else glUniform1uiv location amount uniform
   else if dimension =? 2 then
     if type =? GL_FLOAT then glUniform2fv location amount uniform
     else if type =? GL_INT then glUniform2iv location amount uniform
     else glUniform2uiv location amount uniform
   else if dimension =? 3 then
     if type =? GL_FLOAT then glUniform3fv location amount uniform
     else if type =? GL_INT then glUniform3iv location amount uniform
     else glUniform3uiv location amount uniform
   else
     if type =? GL_FLOAT then glUniform4fv location amount uniform
     else if type =? GL_INT then glUniform4iv location amount uniform
     else glUniform4uiv location amount uniform);;
  mret 1.

Definition glcSetUniformMatx (program : Z) (name : string)
    (dimension amount transpose uniform : Z) : M Z :=
  if (dimension <? 2) || (dimension >? 4) then
    (fprintf stderr ("Dimension invalid. Must be 2-4. Got %d." +:+ nl)
       [PInt dimension];;
     mret (-1))
  else
  location ← glGetUniformLocation program name;
  if location =? -1 then
    (fprintf stderr ("Uniform name invalid: %s" +:+ nl) [PStr name];;
     mret (-1))
  else
  glUseProgram program;;
  (if dimension =? 2 then
     glUniformMatrix2fv location amount transpose uniform
   else if dimension =? 3 then
     glUniformMatrix3fv location amount transpose uniform
   else
     glUniformMatrix4fv location amount transpose uniform);;
  mret 1.

End GLC.

(** ** Observing a run *)

Definition is_upload (c : Call) : bool :=
  match c with
  | Uniform _ _ _ _ _ | UniformMatrix _ _ _ _ _ _ => true
  | _ => false
  end.

Definition is_diagnostic (c : Call) : bool :=
  match c with
  | Fprintf stderr _ _ => true
  | _ => false
  end.

Definition uploads (t : list Call) : list Call := List.filter is_upload t.
Definition diagnostics (t : list Call) : list Call := List.filter is_diagnostic t.

(** The diagnostics of the setters, under the names of the error taxonomy. *)
Definition InvalidDimensionError (range : string) (dimension : Z) : Call :=
  Fprintf stderr ("Dimension invalid. Must be " +:+ range +:+ ". Got %d." +:+ nl)
    [PInt dimension].
Definition InvalidCountError (amount : Z) : Call :=
  Fprintf stderr ("Amount invalid. Must be larger than 0. Got %d" +:+ nl)
    [PInt amount].
Definition UnknownUniformError (name : string) : Call :=
  Fprintf stderr ("Uniform name invalid: %s" +:+ nl) [PStr name].

(** A run from [w] that returns -1, prints [d] and nothing else, and
    uploads nothing. *)
Definition fails_with (d : Call) (w : World) (r : Res Z) : Prop :=
  ∃ w' t, r = Done (-1) w' ∧ trace w' = trace w ++ t
          ∧ diagnostics t = [d] ∧ uploads t = [].

(** Element type and dimension of an upload entry point, as its name
    spells them. *)
Inductive elem_type := TFloat | TInt | TUInt.

Definition fn_type (fn : uniform_fn) : elem_type :=
  match fn with
  | Uniform1fv | Uniform2fv | Uniform3fv | Uniform4fv => TFloat
  | Uniform1iv | Uniform2iv | Uniform3iv | Uniform4iv => TInt
  | Uniform1uiv | Uniform2uiv | Uniform3uiv | Uniform4uiv => TUInt
  end.

Definition fn_dim (fn : uniform_fn) : Z :=
  match fn with
  | Uniform1fv | Uniform1iv | Uniform1uiv => 1
  | Uniform2fv | Uniform2iv | Uniform2uiv => 2
  | Uniform3fv | Uniform3iv | Uniform3uiv => 3
  | Uniform4fv | Uniform4iv | Uniform4uiv => 4
  end.

Definition matrix_dim (fn : matrix_fn) : Z :=
  match fn with
  | UniformMatrix2fv => 2
  | UniformMatrix3fv => 3
  | UniformMatrix4fv => 4
  end.

(** A variadic slot of the kind [glcSetUniformx] reads for [type]. *)
Definition slot_ok {hdr : GLHeader} (type : Z) (s : va_slot) : Prop :=
  match s with
  | VaDouble _ => type = GL_FLOAT
  | VaInt _ => type ≠ GL_FLOAT
  end.

(** ** What [glcMakeShaderProgram] can do

    The calls that read one source file: one [fgetc] per byte and one more
    that finds the end, the rewind, the allocation and the read. *)

Definition byte_code (b : byte) : Z := Z.of_N (Byte.to_N b).

Definition read_calls (stream source : Z) (bytes : list byte) : list Call :=
  (Fgetc stream <$> (byte_code <$> bytes))
  ++ [Fgetc stream EOF;
      Fseek stream 0 SEEK_SET 0;
      Calloc (Z.of_nat (length bytes) + 2) sizeof_char source;
      Fread source sizeof_char (Z.of_nat (length bytes) + 1) stream
        (Z.of_nat (length bytes))].

(** The bytes before the first null byte. *)
Fixpoint c_text (bytes : list byte) : list byte :=
  match bytes with
  | [] => []
  | b :: rest => if Byte.eqb b x00 then [] else b :: c_text rest
  end.

Definition compile_calls {hdr : GLHeader} (type shader : Z) (bytes : list byte)
    (success : Z) : list Call :=
  [CreateShader type shader;
   ShaderSource shader 1 [c_text bytes];
   CompileShader shader;
   GetShaderiv shader GL_COMPILE_STATUS success].

(** The nine ways a run of [glcMakeShaderProgram] from [w] can end when
    nothing undefined happens: the result and the final world, one
    constructor per [return] of the source.  That every such run ends in
    one of them is lemma [glcMakeShaderProgram_outcome] below. *)
Inductive build_outcome {hdr : GLHeader} (w : World) (program : Z)
    (vertexShaderPath fragmentShaderPath : string) : Z → World → Prop :=
| vertex_open_error :
    disk w !! vertexShaderPath = None →
    build_outcome w program vertexShaderPath fragmentShaderPath (-1)
      (mkWorld (disk w) (streams w) (heap w) (objs w)
         (trace w ++
            [Fopen vertexShaderPath "rb" NULL;
             Fprintf stderr ("Error opening vertex shader: %s" +:+ nl)
               [PStr vertexShaderPath]]))
| fragment_open_error vbytes vertexFile :
    disk w !! vertexShaderPath = Some vbytes →
    disk w !! fragmentShaderPath = None →
    vertexFile ≠ NULL →
    build_outcome w program vertexShaderPath fragmentShaderPath (-1)
      (mkWorld (disk w) (streams w) (heap w) (objs w)
         (trace w ++
            [Fopen vertexShaderPath "rb" vertexFile;
             Fopen fragmentShaderPath "rb" NULL;
             Fprintf stderr ("Error opening fragment shader: %s" +:+ nl)
               [PStr fragmentShaderPath];
             Fclose vertexFile]))
| vertex_create_error vbytes fbytes vertexFile fragmentFile source :
    disk w !! vertexShaderPath = Some vbytes →
    disk w !! fragmentShaderPath = Some fbytes →
    vertexFile ≠ NULL → fragmentFile ≠ NULL → source ≠ NULL →
    build_outcome w program vertexShaderPath fragmentShaderPath (-1)
      (mkWorld (disk w) (streams w) (heap w) (objs w)
         (trace w ++
            [Fopen vertexShaderPath "rb" vertexFile;
             Fopen fragmentShaderPath "rb" fragmentFile]
            ++ read_calls vertexFile source vbytes
            ++ [CreateShader GL_VERTEX_SHADER 0;
                Fprintf stderr ("Error creating vertex shader object." +:+ nl) [];
                Fclose vertexFile; Fclose fragmentFile;
                Free source]))
| vertex_compile_error vbytes fbytes vertexFile fragmentFile source
    vertexShader infoLog :
    disk w !! vertexShaderPath = Some vbytes →
    disk w !! fragmentShaderPath = Some fbytes →
    vertexFile ≠ NULL → fragmentFile ≠ NULL → source ≠ NULL →
    vertexShader ≠ 0 →
    build_outcome w program vertexShaderPath fragmentShaderPath (-1)
      (mkWorld (disk w) (streams w) (heap w) (objs w)
         (trace w ++
            [Fopen vertexShaderPath "rb" vertexFile;
             Fopen fragmentShaderPath "rb" fragmentFile]
            ++ read_calls vertexFile source vbytes
            ++ compile_calls GL_VERTEX_SHADER vertexShader vbytes 0
            ++ [GetShaderInfoLog vertexShader 512 infoLog;
                Fprintf stderr
                  ("Vertex shader compilation error!" +:+ nl +:+ "%s" +:+ nl)
                  [PStr infoLog];
                Fclose vertexFile; Fclose fragmentFile;
                Free source]))
| fragment_create_error vbytes fbytes vertexFile fragmentFile source source'
    vertexShader success :
    disk w !! vertexShaderPath = Some vbytes →
    disk w !! fragmentShaderPath = Some fbytes →
    vertexFile ≠ NULL → fragmentFile ≠ NULL → source ≠ NULL → source' ≠ NULL →
    vertexShader ≠ 0 → success ≠ 0 →
    build_outcome w program vertexShaderPath fragmentShaderPath (-1)
      (mkWorld (disk w) (streams w) (heap w) (objs w)
         (trace w ++
            [Fopen vertexShaderPath "rb" vertexFile;
             Fopen fragmentShaderPath "rb" fragmentFile]
            ++ read_calls vertexFile source vbytes
            ++ compile_calls GL_VERTEX_SHADER vertexShader vbytes success
            ++ [Free source]
            ++ read_calls fragmentFile source' fbytes
            ++ [CreateShader GL_FRAGMENT_SHADER 0;
                Fprintf stderr ("Error creating fragment shader object." +:+ nl) [];
                Fclose vertexFile; Fclose fragmentFile;
                Free source']))
| fragment_compile_error vbytes fbytes vertexFile fragmentFile source source'
    vertexShader success fragmentShader infoLog :
    disk w !! vertexShaderPath = Some vbytes →
    disk w !! fragmentShaderPath = Some fbytes →
    vertexFile ≠ NULL → fragmentFile ≠ NULL → source ≠ NULL → source' ≠ NULL →
    vertexShader ≠ 0 → success ≠ 0 → fragmentShader ≠ 0 →
    build_outcome w program vertexShaderPath fragmentShaderPath (-1)
      (mkWorld (disk w) (streams w) (heap w) (objs w)
         (trace w ++
            [Fopen vertexShaderPath "rb" vertexFile;
             Fopen fragmentShaderPath "rb" fragmentFile]
            ++ read_calls vertexFile source vbytes
            ++ compile_calls GL_VERTEX_SHADER vertexShader vbytes success
            ++ [Free source]
            ++ read_calls fragmentFile source' fbytes
            ++ compile_calls GL_FRAGMENT_SHADER fragmentShader fbytes 0
            ++ [GetShaderInfoLog fragmentShader 512 infoLog;
                Fprintf stderr
                  ("Fragment shader compilation error!" +:+ nl +:+ "%s" +:+ nl)
                  [PStr infoLog];
                Fclose vertexFile; Fclose fragmentFile;
                Free source']))
| program_create_error vbytes fbytes vertexFile fragmentFile source source'
    vertexShader success fragmentShader success' :
    disk w !! vertexShaderPath = Some vbytes →
    disk w !! fragmentShaderPath = Some fbytes →
    vertexFile ≠ NULL → fragmentFile ≠ NULL → source ≠ NULL → source' ≠ NULL →
    vertexShader ≠ 0 → success ≠ 0 → fragmentShader ≠ 0 → success' ≠ 0 →
    build_outcome w program vertexShaderPath fragmentShaderPath (-1)
      (mkWorld (disk w) (streams w) (heap w) (<[program := 0]> (objs w))
         (trace w ++
            [Fopen vertexShaderPath "rb" vertexFile;
             Fopen fragmentShaderPath "rb" fragmentFile]
            ++ read_calls vertexFile source vbytes
            ++ compile_calls GL_VERTEX_SHADER vertexShader vbytes success
            ++ [Free source]
            ++ read_calls fragmentFile source' fbytes
            ++ compile_calls GL_FRAGMENT_SHADER fragmentShader fbytes success'
            ++ [Fclose vertexFile; Fclose fragmentFile;
                Free source';
                CreateProgram 0;
                Fprintf stderr ("Error creating shader program object." +:+ nl) []]))
| link_error vbytes fbytes vertexFile fragmentFile source source'
    vertexShader success fragmentShader success' handle infoLog :
    disk w !! vertexShaderPath = Some vbytes →
    disk w !! fragmentShaderPath = Some fbytes →
    vertexFile ≠ NULL → fragmentFile ≠ NULL → source ≠ NULL → source' ≠ NULL →
    vertexShader ≠ 0 → success ≠ 0 → fragmentShader ≠ 0 → success' ≠ 0 →
    handle ≠ 0 →
    build_outcome w program vertexShaderPath fragmentShaderPath (-1)
      (mkWorld (disk w) (streams w) (heap w) (<[program := handle]> (objs w))
         (trace w ++
            [Fopen vertexShaderPath "rb" vertexFile;
             Fopen fragmentShaderPath "rb" fragmentFile]
            ++ read_calls vertexFile source vbytes
            ++ compile_calls GL_VERTEX_SHADER vertexShader vbytes success
            ++ [Free source]
            ++ read_calls fragmentFile source' fbytes
            ++ compile_calls GL_FRAGMENT_SHADER fragmentShader fbytes success'
            ++ [Fclose vertexFile; Fclose fragmentFile;
                Free source';
                CreateProgram handle;
                AttachShader handle vertexShader;
                AttachShader handle fragmentShader;
                LinkProgram handle;
                GetProgramiv handle GL_LINK_STATUS 0;
                GetProgramInfoLog handle 512 infoLog;
                Fprintf stderr
                  ("Shader program linking error!" +:+ nl +:+ "%s" +:+ nl)
                  [PStr infoLog]]))
| build_success vbytes fbytes vertexFile fragmentFile source source'
    vertexShader success fragmentShader success' handle success'' :
    disk w !! vertexShaderPath = Some vbytes →
    disk w !! fragmentShaderPath = Some fbytes →
    vertexFile ≠ NULL → fragmentFile ≠ NULL → source ≠ NULL → source' ≠ NULL →
    vertexShader ≠ 0 → success ≠ 0 → fragmentShader ≠ 0 → success' ≠ 0 →
    handle ≠ 0 → success'' ≠ 0 →
    build_outcome w program vertexShaderPath fragmentShaderPath 1
      (mkWorld (disk w) (streams w) (heap w) (<[program := handle]> (objs w))
         (trace w ++
            [Fopen vertexShaderPath "rb" vertexFile;
             Fopen fragmentShaderPath "rb" fragmentFile]
            ++ read_calls vertexFile source vbytes
            ++ compile_calls GL_VERTEX_SHADER vertexShader vbytes success
            ++ [Free source]
            ++ read_calls fragmentFile source' fbytes
            ++ compile_calls GL_FRAGMENT_SHADER fragmentShader fbytes success'
            ++ [Fclose vertexFile; Fclose fragmentFile;
                Free source';
                CreateProgram handle;
                AttachShader handle vertexShader;
                AttachShader handle fragmentShader;
                LinkProgram handle;
                GetProgramiv handle GL_LINK_STATUS success'';
                DeleteShader vertexShader;
                DeleteShader fragmentShader])).

(** Calls whose result reports a failure: those that end a run before the
    program object is created, and all of them. *)
Definition fails_early (c : Call) : bool :=
  match c with
  | Fopen _ _ ret => ret =? NULL
  | CreateShader _ ret => ret =? 0
  | GetShaderiv _ _ ret => ret =? 0
  | _ => false
  end.

Definition call_failed (c : Call) : bool :=
  match c with
  | CreateProgram ret => ret =? 0
  | GetProgramiv _ _ ret => ret =? 0
  | _ => fails_early c
  end.

Definition creates_program (c : Call) : bool :=
  match c with
  | CreateProgram _ => true
  | _ => false
  end.

Definition deletes_shader (c : Call) : bool :=
  match c with
  | DeleteShader _ => true
  | _ => false
  end.

(** The shader units a trace has created and not deleted, oldest first. *)
Definition live_shaders (t : list Call) : list Z :=
  foldl (λ live c,
           match c with
           | CreateShader _ ret => if ret =? 0 then live else live ++ [ret]
           | DeleteShader shader => List.filter (λ s, negb (s =? shader)) live
           | _ => live
           end) [] t.

(** What a run needs of a source file, if it exists, to stay clear of
    undefined behaviour: the counting loops have fuel for it, its length
    and the two bytes added to it fit an [int], and the allocator grants
    the buffer. *)
Definition fits {env : Environment} (fuel : nat) (w : World) (path : string)
    : Prop :=
  ∀ bytes, disk w !! path = Some bytes →
    (length bytes < fuel)%nat
    ∧ Z.of_nat (length bytes) + 2 ≤ INT_MAX
    ∧ alloc_ok (heap w) (Z.of_nat (length bytes) + 2) = true.

(** ** Concrete environments, for running the model *)

(** The values the OpenGL registry assigns. *)
Definition khronos : GLHeader := {|
  GL_FLOAT := 0x1406;
  GL_INT := 0x1404;
  GL_UNSIGNED_INT := 0x1405;
  GL_VERTEX_SHADER := 0x8B31;
  GL_FRAGMENT_SHADER := 0x8B30;
  GL_COMPILE_STATUS := 0x8B81;
  GL_LINK_STATUS := 0x8B82
|}.

Definition count_calls (p : Call → bool) (t : list Call) : Z :=
  Z.of_nat (length (List.filter p t)).

Definition creates_object (c : Call) : bool :=
  match c with
  | CreateShader _ _ | CreateProgram _ => true
  | _ => false
  end.

Definition queries_status (c : Call) : bool :=
  match c with
  | GetShaderiv _ _ _ | GetProgramiv _ _ _ => true
  | _ => false
  end.

(** A driver that hands out the names 1, 2, 3, ... and refuses the object
    creation number [no_object] and the compile or link number [no_status]
    (counted from 0; a negative number refuses none).  It knows the
    uniforms in [uniforms], and memory never runs out. *)
Definition test_driver (no_object no_status : Z) (uniforms : list (string * Z))
    : Environment := {|
  drv_CreateShader t _ :=
    if count_calls creates_object t =? no_object then 0
    else count_calls creates_object t + 1;
  drv_GetShaderiv t _ _ :=
    if count_calls queries_status t =? no_status then 0 else 1;
  drv_GetShaderInfoLog _ _ := "0:1: syntax error";
  drv_CreateProgram t :=
    if count_calls creates_object t =? no_object then 0
    else count_calls creates_object t + 1;
  drv_GetProgramiv t _ _ :=
    if count_calls queries_status t =? no_status then 0 else 1;
  drv_GetProgramInfoLog _ _ := "link failed";
  drv_GetUniformLocation _ _ name :=
    match list_find (λ u, bool_decide (u.1 = name)) uniforms with
    | Some (_, (_, loc)) => loc
    | None => -1
    end;
  alloc_ok _ _ := true
|}.

(** A world with a three-byte vertex shader, a one-byte fragment shader and
    one [GLuint] of the caller's at address 100. *)
Definition test_world : World :=
  mkWorld (<["v.glsl" := [x61; x62; x63]]> (<["f.glsl" := [x64]]> ∅))
    ∅ ∅ (<[100 := 7]> ∅) [].

(** ** Further observations and environments *)

(** The four cells a 4-byte scalar occupies, and the image of an array. *)
Definition fragments (v : scalar) : list memval :=
  [MFrag v 0; MFrag v 1; MFrag v 2; MFrag v 3].

Definition encode (vs : list scalar) : list memval := vs ≫= fragments.

(** What the loop of [glcSetUniformx] stores for a variadic slot. *)
Definition scalar_of_slot {hdr : GLHeader} (type : Z) (s : va_slot) : scalar :=
  match s with
  | VaDouble d => SFloat (GLfloat_of_double d)
  | VaInt z => if type =? GL_INT then SInt (wrap_int z) else SUInt (wrap_uint z)
  end.

Definition uses_program (c : Call) : bool :=
  match c with
  | UseProgram _ => true
  | _ => false
  end.

Definition AllocationError : Call :=
  Fprintf stderr ("Error allocating memory when setting uniform." +:+ nl) [].

Definition is_fopen (c : Call) : bool :=
  match c with
  | Fopen _ _ _ => true
  | _ => false
  end.

Definition is_source (c : Call) : bool :=
  match c with
  | ShaderSource _ _ _ => true
  | _ => false
  end.

(** The same driver on a machine whose allocator refuses every request. *)
Definition out_of_memory (env : Environment) : Environment := {|
  drv_CreateShader := @drv_CreateShader env;
  drv_GetShaderiv := @drv_GetShaderiv env;
  drv_GetShaderInfoLog := @drv_GetShaderInfoLog env;
  drv_CreateProgram := @drv_CreateProgram env;
  drv_GetProgramiv := @drv_GetProgramiv env;
  drv_GetProgramInfoLog := @drv_GetProgramInfoLog env;
  drv_GetUniformLocation := @drv_GetUniformLocation env;
  alloc_ok _ _ := false
|}.

(** A world with an empty vertex shader and a fragment shader that has a
    null byte in the middle. *)
Definition edge_world : World :=
  mkWorld (<["empty.glsl" := []]> (<["nul.glsl" := [x61; x00; x62]]> ∅))
    ∅ ∅ (<[100 := 7]> ∅) [].

(** * Properties *)

(** ** Stepping through a run *)

Lemma bind_run {A B} (m : M A) (f : A → M B) (w : World) :
  (m ≫= f) w =
  match m w with
  | Undefined => Undefined
  | OutOfFuel => OutOfFuel
  | Done a w' => f a w'
  end.
Proof. reflexivity. Qed.

Lemma dimension_rejected (lo dimension : Z) :
  dimension < lo ∨ 4 < dimension →
  (dimension <? lo) || (dimension >? 4) = true.
Proof.
  intros [Hlo | Hhi]; apply orb_true_iff.
  - left. by apply Z.ltb_lt.
  - right. rewrite Z.gtb_ltb. by apply Z.ltb_lt.
Qed.

Lemma dimension_accepted (lo dimension : Z) :
  lo ≤ dimension ≤ 4 →
  (dimension <? lo) || (dimension >? 4) = false.
Proof.
  intros [Hlo Hhi]. apply orb_false_iff. split.
  - by apply Z.ltb_ge.
  - rewrite Z.gtb_ltb. by apply Z.ltb_ge.
Qed.

Lemma fresh_ptr_fresh {V} (m : gmap Z V) : m !! fresh_ptr m = None.
Proof.
  apply not_elem_of_dom. unfold fresh_ptr.
  pose proof (is_fresh ({[NULL]} ∪ dom m)) as Hf. set_solver.
Qed.

Lemma fresh_ptr_not_null {V} (m : gmap Z V) : fresh_ptr m ≠ NULL.
Proof.
  unfold fresh_ptr.
  pose proof (is_fresh ({[NULL]} ∪ dom m)) as Hf. set_solver.
Qed.

(** Shape determines the entry point: two upload entry points of the same
    element type and dimension are the same one. *)
Lemma uniform_fn_shape_inj (f g : uniform_fn) :
  fn_type f = fn_type g → fn_dim f = fn_dim g → f = g.
Proof. by destruct f, g. Qed.

Section Setters.
Context {hdr : GLHeader} {env : Environment}.

(** The loop that moves the variadic arguments to [data] touches that
    block only. *)
Lemma fill_loop (type data : Z) (n : nat) :
  ∀ (i : Z) (vl : list va_slot) (w : World) (blk : list memval),
    heap w !! data = Some blk →
    0 ≤ i →
    (Z.to_nat (4 * (i + Z.of_nat n)) ≤ length blk)%nat →
    (n ≤ length vl)%nat →
    Forall (slot_ok type) vl →
    ∃ blk' vl',
      for_loop n i (λ i vl,
         if type =? GL_FLOAT then
           '(d, vl) ← va_arg_double vl;
           store4 data i (SFloat (GLfloat_of_double d));; mret vl
         else if type =? GL_INT then
           '(v, vl) ← va_arg_int vl;
           store4 data i (SInt v);; mret vl
         else
           '(v, vl) ← va_arg_unsigned vl;
           store4 data i (SUInt v);; mret vl) vl w
      = Done vl' (set_heap <[data := blk']> w)
      ∧ length blk' = length blk.
Proof.
  induction n as [|n IH]; intros i vl w blk Hblk Hi Hlen Hvl Hok.
  - exists blk, vl. split; [|done].
    cbn. unfold set_heap. rewrite insert_id by done. by destruct w.
  - destruct vl as [|s vl]; [cbn in Hvl; lia|].
    apply Forall_cons in Hok as [Hs Hok]. cbn in Hvl.
    assert (Hfit : (0 <=? i) && (Z.to_nat (4 * i) + 4 <=? length blk)%nat = true).
    { apply andb_true_iff. split; [by apply Z.leb_le|]. apply Nat.leb_le. lia. }
    set (put v := take (Z.to_nat (4 * i)) blk
                    ++ [MFrag v 0; MFrag v 1; MFrag v 2; MFrag v 3]
                    ++ drop (Z.to_nat (4 * i) + 4) blk).
    assert (Hput : ∀ v, length (put v) = length blk).
    { intros v. unfold put. rewrite !length_app, length_take, length_drop.
      cbn. lia. }
    assert (Hnext : ∀ v,
      heap (set_heap <[data := put v]> w) !! data = Some (put v)).
    { intros v. cbn. apply lookup_insert_eq. }
    assert (Hstep : ∀ v blk'' (vl'' : list va_slot),
      set_heap <[data := blk'']> (set_heap <[data := put v]> w)
      = set_heap <[data := blk'']> w).
    { intros v blk'' _. unfold set_heap. cbn. by rewrite insert_insert_eq. }
    cbn [for_loop]. rewrite bind_run.
    destruct s as [d | z]; cbn in Hs.
    + subst type. rewrite Z.eqb_refl. cbn [va_arg_double].
      rewrite bind_run. cbn [mret M_ret].
      rewrite bind_run. unfold store4 at 1. rewrite Hblk, Hfit.
      fold (put (SFloat (GLfloat_of_double d))). cbn [mret M_ret].
      destruct (IH (i + 1) vl _ _ (Hnext (SFloat (GLfloat_of_double d))))
        as (blk' & vl' & Hrun & Hlen'); [lia | rewrite Hput; lia | lia | done |].
      rewrite Z.eqb_refl in Hrun. exists blk', vl'.
      rewrite Hrun, Hstep by done. split; [done | by rewrite Hlen', Hput].
    + apply Z.eqb_neq in Hs. rewrite Hs.
      destruct (type =? GL_INT) eqn:Hint.
      * cbn [va_arg_int]. rewrite bind_run. cbn [mret M_ret].
        rewrite bind_run. unfold store4 at 1. rewrite Hblk, Hfit.
        fold (put (SInt (wrap_int z))). cbn [mret M_ret].
        destruct (IH (i + 1) vl _ _ (Hnext (SInt (wrap_int z))))
          as (blk' & vl' & Hrun & Hlen'); [lia | rewrite Hput; lia | lia | done |].
        rewrite Hs in Hrun. exists blk', vl'.
        rewrite Hrun, Hstep by done. split; [done | by rewrite Hlen', Hput].
      * cbn [va_arg_unsigned]. rewrite bind_run. cbn [mret M_ret].
        rewrite bind_run. unfold store4 at 1. rewrite Hblk, Hfit.
        fold (put (SUInt (wrap_uint z))). cbn [mret M_ret].
        destruct (IH (i + 1) vl _ _ (Hnext (SUInt (wrap_uint z))))
          as (blk' & vl' & Hrun & Hlen'); [lia | rewrite Hput; lia | lia | done |].
        rewrite Hs in Hrun. exists blk', vl'.
        rewrite Hrun, Hstep by done. split; [done | by rewrite Hlen', Hput].
Qed.

(** The dispatch statement shared by [glcSetUniformx] and
    [glcSetUniformxv]: one upload, through the entry point whose dimension
    is [dimension] and whose element type the tag selects. *)
Lemma dispatch_run (type dimension location count value : Z) (w : World) :
  1 ≤ dimension ≤ 4 →
  ∃ fn,
    (if dimension =? 1 then
       if type =? GL_FLOAT then glUniform1fv location count value
       else if type =? GL_INT then glUniform1iv location count value
       else glUniform1uiv location count value
     else if dimension =? 2 then
       if type =? GL_FLOAT then glUniform2fv location count value
       else if type =? GL_INT then glUniform2iv location count value
       else glUniform2uiv location count value
     else if dimension =? 3 then
       if type =? GL_FLOAT then glUniform3fv location count value
       else if type =? GL_INT then glUniform3iv location count value
       else glUniform3uiv location count value
     else
       if type =? GL_FLOAT then glUniform4fv location count value
       else if type =? GL_INT then glUniform4iv location count value
       else glUniform4uiv location count value) w
    = Done tt (log (Uniform fn location count value (heap w !! value)) w)
    ∧ fn_dim fn = dimension
    ∧ (type = GL_FLOAT → fn_type fn = TFloat)
    ∧ (type ≠ GL_FLOAT → type = GL_INT → fn_type fn = TInt)
    ∧ (type ≠ GL_FLOAT → type ≠ GL_INT → fn_type fn = TUInt).
Proof.
  intros Hdim.
  assert (dimension = 1 ∨ dimension = 2 ∨ dimension = 3 ∨ dimension = 4)
    as [-> | [-> | [-> | ->]]] by lia; cbn [Z.eqb Pos.eqb];
    destruct (Z.eqb_spec type GL_FLOAT) as [Hf | Hf];
    try destruct (Z.eqb_spec type GL_INT) as [Hi | Hi];
    eexists; (split; [reflexivity |]); cbn; repeat split; congruence.
Qed.

Lemma glcSetUniformx_bad_dimension (w : World) (program : Z) (name : string)
    (type dimension : Z) (vl : list va_slot) :
  dimension < 1 ∨ 4 < dimension →
  glcSetUniformx program name type dimension vl w
  = Done (-1) (log (InvalidDimensionError "1-4" dimension) w).
Proof.
  intros Hdim. unfold glcSetUniformx.
  by rewrite dimension_rejected.
Qed.

Lemma glcSetUniformxv_bad_dimension (w : World) (program : Z) (name : string)
    (type dimension amount uniform : Z) :
  dimension < 1 ∨ 4 < dimension →
  glcSetUniformxv program name type dimension amount uniform w
  = Done (-1) (log (InvalidDimensionError "1-4" dimension) w).
Proof.
  intros Hdim. unfold glcSetUniformxv.
  by rewrite dimension_rejected.
Qed.

Lemma glcSetUniformMatx_bad_dimension (w : World) (program : Z) (name : string)
    (dimension amount transpose uniform : Z) :
  dimension < 2 ∨ 4 < dimension →
  glcSetUniformMatx program name dimension amount transpose uniform w
  = Done (-1) (log (InvalidDimensionError "2-4" dimension) w).
Proof.
  intros Hdim. unfold glcSetUniformMatx.
  by rewrite dimension_rejected.
Qed.

Lemma glcSetUniformxv_bad_amount (w : World) (program : Z) (name : string)
    (type dimension amount uniform : Z) :
  1 ≤ dimension ≤ 4 →
  amount ≤ 0 →
  glcSetUniformxv program name type dimension amount uniform w
  = Done (-1) (log (InvalidCountError amount) w).
Proof.
  intros Hdim Hamount. unfold glcSetUniformxv.
  rewrite dimension_accepted by done.
  by rewrite (proj2 (Z.leb_le amount 0) Hamount).
Qed.

Lemma glcSetUniformx_unknown_uniform (w : World) (program : Z) (name : string)
    (type dimension : Z) (vl : list va_slot) :
  1 ≤ dimension ≤ 4 →
  drv_GetUniformLocation (trace w) program name = -1 →
  glcSetUniformx program name type dimension vl w
  = Done (-1) (log (UnknownUniformError name)
                 (log (GetUniformLocation program name (-1)) w)).
Proof.
  intros Hdim Hloc. unfold glcSetUniformx.
  rewrite dimension_accepted by done.
  rewrite bind_run. unfold glGetUniformLocation. by rewrite Hloc.
Qed.

Lemma glcSetUniformxv_unknown_uniform (w : World) (program : Z) (name : string)
    (type dimension amount uniform : Z) :
  1 ≤ dimension ≤ 4 →
  0 < amount →
  drv_GetUniformLocation (trace w) program name = -1 →
  glcSetUniformxv program name type dimension amount uniform w
  = Done (-1) (log (UnknownUniformError name)
                 (log (GetUniformLocation program name (-1)) w)).
Proof.
  intros Hdim Hamount Hloc. unfold glcSetUniformxv.
  rewrite dimension_accepted by done.
  rewrite (proj2 (Z.leb_gt amount 0) Hamount).
  rewrite bind_run. unfold glGetUniformLocation. by rewrite Hloc.
Qed.

Lemma glcSetUniformMatx_unknown_uniform (w : World) (program : Z) (name : string)
    (dimension amount transpose uniform : Z) :
  2 ≤ dimension ≤ 4 →
  drv_GetUniformLocation (trace w) program name = -1 →
  glcSetUniformMatx program name dimension amount transpose uniform w
  = Done (-1) (log (UnknownUniformError name)
                 (log (GetUniformLocation program name (-1)) w)).
Proof.
  intros Hdim Hloc. unfold glcSetUniformMatx.
  rewrite dimension_accepted by done.
  rewrite bind_run. unfold glGetUniformLocation. by rewrite Hloc.
Qed.

Lemma glcSetUniformxv_run (w : World) (program : Z) (name : string)
    (type dimension amount uniform : Z) :
  1 ≤ dimension ≤ 4 →
  0 < amount →
  drv_GetUniformLocation (trace w) program name ≠ -1 →
  ∃ fn,
    glcSetUniformxv program name type dimension amount uniform w
    = Done 1
        (mkWorld (disk w) (streams w) (heap w) (objs w)
           (trace w ++
              [GetUniformLocation program name
                 (drv_GetUniformLocation (trace w) program name);
               UseProgram program;
               Uniform fn (drv_GetUniformLocation (trace w) program name)
                 amount uniform (heap w !! uniform)]))
    ∧ fn_dim fn = dimension
    ∧ (type = GL_FLOAT → fn_type fn = TFloat)
    ∧ (type ≠ GL_FLOAT → type = GL_INT → fn_type fn = TInt)
    ∧ (type ≠ GL_FLOAT → type ≠ GL_INT → fn_type fn = TUInt).
Proof.
  intros Hdim Hamount Hloc. unfold glcSetUniformxv.
  rewrite dimension_accepted by done.
  rewrite (proj2 (Z.leb_gt amount 0) Hamount).
  rewrite bind_run. unfold glGetUniformLocation at 1. cbv zeta.
  rewrite (proj2 (Z.eqb_neq _ _) Hloc).
  rewrite bind_run. unfold glUseProgram at 1.
  rewrite bind_run.
  match goal with
  | |- context [Done 1 (mkWorld _ _ _ _ (_ ++ [_; _; Uniform _ ?l ?c ?v _]))] =>
      match goal with
      | |- context [match ?d ?w1 with _ => _ end] =>
          destruct (dispatch_run type dimension l c v w1 Hdim)
            as (fn & Hrun & Hshape)
      end
  end.
  exists fn. split; [|done].
  rewrite Hrun. cbn. unfold log. cbn. by rewrite <- !app_assoc.
Qed.

Lemma glcSetUniformx_run (w : World) (program : Z) (name : string)
    (type dimension : Z) (vl : list va_slot) :
  1 ≤ dimension ≤ 4 →
  drv_GetUniformLocation (trace w) program name ≠ -1 →
  alloc_ok (heap w) (4 * dimension) = true →
  (Z.to_nat dimension ≤ length vl)%nat →
  Forall (slot_ok type) vl →
  ∃ fn blk,
    glcSetUniformx program name type dimension vl w
    = Done 1
        (mkWorld (disk w) (streams w) (heap w) (objs w)
           (trace w ++
              [GetUniformLocation program name
                 (drv_GetUniformLocation (trace w) program name);
               UseProgram program;
               Malloc (4 * dimension) (fresh_ptr (heap w));
               Uniform fn (drv_GetUniformLocation (trace w) program name)
                 1 (fresh_ptr (heap w)) (Some blk);
               Free (fresh_ptr (heap w))]))
    ∧ length blk = Z.to_nat (4 * dimension)
    ∧ fn_dim fn = dimension
    ∧ (type = GL_FLOAT → fn_type fn = TFloat)
    ∧ (type ≠ GL_FLOAT → type = GL_INT → fn_type fn = TInt)
    ∧ (type ≠ GL_FLOAT → type ≠ GL_INT → fn_type fn = TUInt).
Proof.
  intros Hdim Hloc Halloc Hlen Hvl. unfold glcSetUniformx.
  rewrite dimension_accepted by done.
  rewrite bind_run. unfold glGetUniformLocation at 1. cbv zeta.
  rewrite (proj2 (Z.eqb_neq _ _) Hloc).
  rewrite bind_run. unfold glUseProgram at 1.
  replace (if type =? GL_FLOAT then sizeof_GLfloat * dimension
           else if type =? GL_INT then sizeof_GLint * dimension
           else sizeof_GLuint * dimension)
    with (4 * dimension)
    by (by destruct (type =? GL_FLOAT), (type =? GL_INT)).
  rewrite bind_run. unfold malloc at 1. cbn [heap log].
  rewrite Halloc. cbv zeta.
  pose proof (proj2 (Z.eqb_neq _ _) (fresh_ptr_not_null (heap w))) as Hdata.
  rewrite Hdata.
  set (location := drv_GetUniformLocation (trace w) program name).
  set (data := fresh_ptr (heap w)) in *.
  set (w1 := log (Malloc (4 * dimension) data) _).
  assert (Hblk : heap w1 !! data
                 = Some (replicate (Z.to_nat (4 * dimension)) MUndef)).
  { cbn. apply lookup_insert_eq. }
  destruct (fill_loop type data (Z.to_nat dimension) 0 vl w1 _ Hblk)
    as (blk & vl' & Hfill & Hsize);
    [lia | rewrite length_replicate; lia | done | done |].
  rewrite bind_run, Hfill. clear Hfill.
  rewrite length_replicate in Hsize.
  rewrite bind_run.
  destruct (dispatch_run type dimension location 1 data
              (set_heap <[data := blk]> w1) Hdim) as (fn & Hrun & Hshape).
  exists fn, blk. split; [|done].
  rewrite Hrun. clear Hrun.
  rewrite bind_run. unfold free. rewrite Hdata.
  cbn [heap log set_heap]. rewrite !lookup_insert_eq.
  cbn [mret M_ret]. f_equal. unfold log, set_heap. cbn.
  rewrite insert_insert_eq, delete_insert_eq,
    (delete_id (heap w)) by apply fresh_ptr_fresh.
  by rewrite <- !app_assoc.
Qed.

Lemma glcSetUniformMatx_run (w : World) (program : Z) (name : string)
    (dimension amount transpose uniform : Z) :
  2 ≤ dimension ≤ 4 →
  drv_GetUniformLocation (trace w) program name ≠ -1 →
  ∃ fn,
    glcSetUniformMatx program name dimension amount transpose uniform w
    = Done 1
        (mkWorld (disk w) (streams w) (heap w) (objs w)
           (trace w ++
              [GetUniformLocation program name
                 (drv_GetUniformLocation (trace w) program name);
               UseProgram program;
               UniformMatrix fn (drv_GetUniformLocation (trace w) program name)
                 amount transpose uniform (heap w !! uniform)]))
    ∧ matrix_dim fn = dimension.
Proof.
  intros Hdim Hloc. unfold glcSetUniformMatx.
  rewrite dimension_accepted by done.
  rewrite bind_run. unfold glGetUniformLocation at 1. cbv zeta.
  rewrite (proj2 (Z.eqb_neq _ _) Hloc).
  rewrite bind_run. unfold glUseProgram at 1.
  rewrite bind_run.
  assert (dimension = 2 ∨ dimension = 3 ∨ dimension = 4)
    as [-> | [-> | ->]] by lia; cbn [Z.eqb Pos.eqb];
    [exists UniformMatrix2fv | exists UniformMatrix3fv | exists UniformMatrix4fv];
    (split; [|reflexivity]);
    cbn; unfold log; cbn; by rewrite <- !app_assoc.
Qed.

Lemma fails_with_log (d : Call) (w : World) :
  is_diagnostic d = true →
  is_upload d = false →
  fails_with d w (Done (-1) (log d w)).
Proof.
  intros Hd Hu. exists (log d w), [d]. repeat split.
  - cbn. by rewrite Hd.
  - cbn. by rewrite Hu.
Qed.

Lemma fails_with_unknown_uniform (program : Z) (name : string) (w : World) :
  fails_with (UnknownUniformError name) w
    (Done (-1) (log (UnknownUniformError name)
                  (log (GetUniformLocation program name (-1)) w))).
Proof.
  eexists _, [GetUniformLocation program name (-1); UnknownUniformError name].
  repeat split. cbn. by rewrite <- app_assoc.
Qed.

Lemma invalid_count_fails_run (w : World) (program : Z) (name : string)
    (type dimension amount uniform : Z) :
  1 ≤ dimension ≤ 4 →
  amount ≤ 0 →
  fails_with (InvalidCountError amount) w
    (glcSetUniformxv program name type dimension amount uniform w).
Proof.
  intros Hdim Hamount. rewrite glcSetUniformxv_bad_amount by done.
  by apply fails_with_log.
Qed.

End Setters.

(** ** The uniform setters *)

(** C5.  A vector setter ([glcSetUniformx], [glcSetUniformxv]) called with
    a dimension outside 1..4, and the matrix setter ([glcSetUniformMatx])
    called with a dimension outside 2..4, returns -1, prints the
    "Dimension invalid" diagnostic and nothing else, and makes no upload
    call. *)
Theorem invalid_dimension_fails {hdr : GLHeader} {env : Environment}
    (w : World) (program : Z) (name : string)
    (type dimension amount transpose uniform : Z) (vl : list va_slot) :
  (dimension < 1 ∨ 4 < dimension →
     fails_with (InvalidDimensionError "1-4" dimension) w
       (glcSetUniformx program name type dimension vl w)
     ∧ fails_with (InvalidDimensionError "1-4" dimension) w
         (glcSetUniformxv program name type dimension amount uniform w))
  ∧ (dimension < 2 ∨ 4 < dimension →
     fails_with (InvalidDimensionError "2-4" dimension) w
       (glcSetUniformMatx program name dimension amount transpose uniform w)).
Proof.
  split; intros Hdim.
  - rewrite glcSetUniformx_bad_dimension, glcSetUniformxv_bad_dimension by done.
    split; by apply fails_with_log.
  - rewrite glcSetUniformMatx_bad_dimension by done. by apply fails_with_log.
Qed.

Lemma invalid_dimension_fails_witness :
  (fails_with (InvalidDimensionError "1-4" 5) test_world
     (glcSetUniformx (hdr := khronos) (env := test_driver (-1) (-1) [("color", 5)])
        3 "color" (@GL_FLOAT khronos) 5 [] test_world)
   ∧ fails_with (InvalidDimensionError "1-4" 5) test_world
       (glcSetUniformxv (hdr := khronos) (env := test_driver (-1) (-1) [("color", 5)])
          3 "color" (@GL_FLOAT khronos) 5 1 0 test_world))
  ∧ fails_with (InvalidDimensionError "2-4" 1) test_world
      (glcSetUniformMatx (env := test_driver (-1) (-1) [("color", 5)])
         3 "color" 1 1 0 0 test_world).
Proof.
  split.
  - apply (proj1 (invalid_dimension_fails (hdr := khronos) test_world 3 "color"
                    (@GL_FLOAT khronos) 5 1 0 0 [])). lia.
  - apply (proj2 (invalid_dimension_fails (hdr := khronos) test_world 3 "color"
                    (@GL_FLOAT khronos) 1 1 0 0 [])). lia.
Defined.

(** C6, as amended.  With a valid dimension and a name for which the
    driver's location lookup answers -1, [glcSetUniformx] and
    [glcSetUniformMatx] return -1, print the "Uniform name invalid"
    diagnostic and nothing else, and upload nothing; [glcSetUniformxv]
    does so when, in addition, its amount is positive. *)
Theorem unknown_uniform_fails {hdr : GLHeader} {env : Environment}
    (w : World) (program : Z) (name : string)
    (type dimension amount transpose uniform : Z) (vl : list va_slot) :
  drv_GetUniformLocation (trace w) program name = -1 →
  (1 ≤ dimension ≤ 4 →
     fails_with (UnknownUniformError name) w
       (glcSetUniformx program name type dimension vl w))
  ∧ (1 ≤ dimension ≤ 4 → 0 < amount →
     fails_with (UnknownUniformError name) w
       (glcSetUniformxv program name type dimension amount uniform w))
  ∧ (2 ≤ dimension ≤ 4 →
     fails_with (UnknownUniformError name) w
       (glcSetUniformMatx program name dimension amount transpose uniform w)).
Proof.
  intros Hloc. repeat split.
  - intros Hdim. rewrite glcSetUniformx_unknown_uniform by done.
    apply fails_with_unknown_uniform.
  - intros Hdim Hamount. rewrite glcSetUniformxv_unknown_uniform by done.
    apply fails_with_unknown_uniform.
  - intros Hdim. rewrite glcSetUniformMatx_unknown_uniform by done.
    apply fails_with_unknown_uniform.
Qed.

Lemma unknown_uniform_fails_witness :
  fails_with (UnknownUniformError "tint") test_world
    (glcSetUniformx (hdr := khronos) (env := test_driver (-1) (-1) [("color", 5)])
       3 "tint" (@GL_FLOAT khronos) 3 [] test_world)
  ∧ fails_with (UnknownUniformError "tint") test_world
      (glcSetUniformxv (hdr := khronos) (env := test_driver (-1) (-1) [("color", 5)])
         3 "tint" (@GL_FLOAT khronos) 3 2 0 test_world)
  ∧ fails_with (UnknownUniformError "tint") test_world
      (glcSetUniformMatx (env := test_driver (-1) (-1) [("color", 5)])
         3 "tint" 3 2 0 0 test_world).
Proof.
  destruct (unknown_uniform_fails (hdr := khronos)
              (env := test_driver (-1) (-1) [("color", 5)])
              test_world 3 "tint" (@GL_FLOAT khronos) 3 2 0 0 [] eq_refl)
    as (Hx & Hxv & Hmat).
  split; [apply Hx; lia | split; [apply Hxv; lia | apply Hmat; lia]].
Defined.

(** C6 as stated fails: [glcSetUniformxv] with a valid dimension, an
    unknown name and amount 0 never asks the driver for the location; it
    fails with the "Amount invalid" diagnostic instead. *)
Lemma unknown_uniform_counterexample :
  1 ≤ 1 ≤ 4
  ∧ drv_GetUniformLocation (Environment := test_driver (-1) (-1) [])
      (trace test_world) 3 "color" = -1
  ∧ glcSetUniformxv (hdr := khronos) (env := test_driver (-1) (-1) [])
      3 "color" (@GL_FLOAT khronos) 1 0 0 test_world
    = Done (-1) (log (InvalidCountError 0) test_world)
  ∧ ¬ fails_with (UnknownUniformError "color") test_world
        (glcSetUniformxv (hdr := khronos) (env := test_driver (-1) (-1) [])
           3 "color" (@GL_FLOAT khronos) 1 0 0 test_world).
Proof.
  split; [lia|]. split; [reflexivity|]. split; [reflexivity|].
  intros (w' & t & Hrun & Ht & Hd & _).
  injection Hrun as <-. cbn in Ht. subst t. discriminate Hd.
Qed.

(** C7, as amended.  [glcSetUniformxv] called with a valid dimension and
    an amount less than or equal to 0 returns -1, prints the "Amount
    invalid" diagnostic and nothing else, and uploads nothing. *)
Theorem invalid_count_fails {hdr : GLHeader} {env : Environment}
    (w : World) (program : Z) (name : string)
    (type dimension amount uniform : Z) :
  1 ≤ dimension ≤ 4 →
  amount ≤ 0 →
  fails_with (InvalidCountError amount) w
    (glcSetUniformxv program name type dimension amount uniform w).
Proof.
  intros Hdim Hamount. by apply invalid_count_fails_run.
Qed.

Lemma invalid_count_fails_witness :
  fails_with (InvalidCountError 0) test_world
    (glcSetUniformxv (hdr := khronos) (env := test_driver (-1) (-1) [("color", 5)])
       3 "color" (@GL_FLOAT khronos) 3 0 0 test_world).
Proof. apply invalid_count_fails; lia. Defined.

(** C7 as stated fails: with amount 0 and dimension 0 the call fails with
    the "Dimension invalid" diagnostic, not the "Amount invalid" one. *)
Lemma invalid_count_counterexample :
  0 ≤ 0
  ∧ glcSetUniformxv (hdr := khronos) (env := test_driver (-1) (-1) [("color", 5)])
      3 "color" (@GL_FLOAT khronos) 0 0 0 test_world
    = Done (-1) (log (InvalidDimensionError "1-4" 0) test_world)
  ∧ ¬ fails_with (InvalidCountError 0) test_world
        (glcSetUniformxv (hdr := khronos)
           (env := test_driver (-1) (-1) [("color", 5)])
           3 "color" (@GL_FLOAT khronos) 0 0 0 test_world).
Proof.
  split; [lia|]. split; [reflexivity|].
  intros (w' & t & Hrun & Ht & Hd & _).
  injection Hrun as <-. cbn in Ht. subst t. discriminate Hd.
Qed.

(** C9.  [glcSetUniformMatx] does not look at [amount]: whatever its
    value, zero and negative ones included, when the dimension is in 2..4
    and the name resolves, the call asks for the location, makes the
    program current, passes [amount] unchanged to the matrix upload of
    that dimension and returns 1.  [glcSetUniformxv] with the same
    arguments rejects an amount that is not positive. *)
Theorem matrix_amount_unchecked {hdr : GLHeader} {env : Environment}
    (w : World) (program : Z) (name : string)
    (type dimension amount transpose uniform : Z) :
  2 ≤ dimension ≤ 4 →
  drv_GetUniformLocation (trace w) program name ≠ -1 →
  (∃ fn,
     glcSetUniformMatx program name dimension amount transpose uniform w
     = Done 1
         (mkWorld (disk w) (streams w) (heap w) (objs w)
            (trace w ++
               [GetUniformLocation program name
                  (drv_GetUniformLocation (trace w) program name);
                UseProgram program;
                UniformMatrix fn (drv_GetUniformLocation (trace w) program name)
                  amount transpose uniform (heap w !! uniform)]))
     ∧ matrix_dim fn = dimension)
  ∧ (amount ≤ 0 →
     fails_with (InvalidCountError amount) w
       (glcSetUniformxv program name type dimension amount uniform w)).
Proof.
  intros Hdim Hloc. split.
  - by apply glcSetUniformMatx_run.
  - intros Hamount. apply invalid_count_fails_run; [lia | done].
Qed.

Lemma matrix_amount_unchecked_witness :
  (∃ fn,
     glcSetUniformMatx (env := test_driver (-1) (-1) [("model", 2)])
       3 "model" 4 (-3) 0 0 test_world
     = Done 1
         (mkWorld (disk test_world) (streams test_world) (heap test_world)
            (objs test_world)
            (trace test_world ++
               [GetUniformLocation 3 "model" 2; UseProgram 3;
                UniformMatrix fn 2 (-3) 0 0 None]))
     ∧ matrix_dim fn = 4)
  ∧ fails_with (InvalidCountError (-3)) test_world
      (glcSetUniformxv (hdr := khronos) (env := test_driver (-1) (-1) [("model", 2)])
         3 "model" (@GL_FLOAT khronos) 4 (-3) 0 test_world).
Proof.
  destruct (matrix_amount_unchecked (hdr := khronos)
              (env := test_driver (-1) (-1) [("model", 2)])
              test_world 3 "model" (@GL_FLOAT khronos) 4 (-3) 0 0)
    as [Hmat Hxv]; [lia | discriminate |].
  split; [exact Hmat | apply Hxv; lia].
Defined.

(** C3.  For each dimension in 1..4 there are three pairwise distinct
    upload entry points, of that dimension and of element types float, int
    and unsigned int, such that [glcSetUniformx] and [glcSetUniformxv],
    once past their checks, make exactly one upload call: through the
    float one when the tag is [GL_FLOAT], the int one when it is [GL_INT],
    the unsigned one when it is [GL_UNSIGNED_INT], and again the unsigned
    one for every other tag. *)
Theorem uniform_dispatch {hdr : GLHeader} {env : Environment} (dimension : Z) :
  GL_FLOAT ≠ GL_INT →
  GL_FLOAT ≠ GL_UNSIGNED_INT →
  GL_INT ≠ GL_UNSIGNED_INT →
  1 ≤ dimension ≤ 4 →
  ∃ ff fi fu,
    (fn_dim ff = dimension ∧ fn_type ff = TFloat)
    ∧ (fn_dim fi = dimension ∧ fn_type fi = TInt)
    ∧ (fn_dim fu = dimension ∧ fn_type fu = TUInt)
    ∧ (ff ≠ fi ∧ ff ≠ fu ∧ fi ≠ fu)
    ∧ ∀ (w : World) (program : Z) (name : string) (type amount uniform : Z)
        (vl : list va_slot),
        drv_GetUniformLocation (trace w) program name ≠ -1 →
        ∃ fn,
          (* which entry point *)
          ((type = GL_FLOAT → fn = ff)
           ∧ (type = GL_INT → fn = fi)
           ∧ (type = GL_UNSIGNED_INT → fn = fu)
           ∧ (type ≠ GL_FLOAT → type ≠ GL_INT → type ≠ GL_UNSIGNED_INT →
              fn = fu))
          (* glcSetUniformx *)
          ∧ (alloc_ok (heap w) (4 * dimension) = true →
             (Z.to_nat dimension ≤ length vl)%nat →
             Forall (slot_ok type) vl →
             ∃ w' t data seen,
               glcSetUniformx program name type dimension vl w = Done 1 w'
               ∧ trace w' = trace w ++ t
               ∧ uploads t
                 = [Uniform fn (drv_GetUniformLocation (trace w) program name)
                      1 data seen])
          (* glcSetUniformxv *)
          ∧ (0 < amount →
             ∃ w' t,
               glcSetUniformxv program name type dimension amount uniform w
               = Done 1 w'
               ∧ trace w' = trace w ++ t
               ∧ uploads t
                 = [Uniform fn (drv_GetUniformLocation (trace w) program name)
                      amount uniform (heap w !! uniform)]).
Proof.
  intros Hfi Hfu Hiu Hdim.
  assert (∃ ff fi fu,
            (fn_dim ff = dimension ∧ fn_type ff = TFloat)
            ∧ (fn_dim fi = dimension ∧ fn_type fi = TInt)
            ∧ (fn_dim fu = dimension ∧ fn_type fu = TUInt))
    as (ff & fi & fu & Hff & Hfi' & Hfu').
  { assert (dimension = 1 ∨ dimension = 2 ∨ dimension = 3 ∨ dimension = 4)
      as [-> | [-> | [-> | ->]]] by lia.
    - by exists Uniform1fv, Uniform1iv, Uniform1uiv.
    - by exists Uniform2fv, Uniform2iv, Uniform2uiv.
    - by exists Uniform3fv, Uniform3iv, Uniform3uiv.
    - by exists Uniform4fv, Uniform4iv, Uniform4uiv. }
  exists ff, fi, fu. do 3 (split; [done|]).
  split.
  { destruct Hff as [_ Hff], Hfi' as [_ Hfi'], Hfu' as [_ Hfu'].
    repeat split; intros ->; congruence. }
  intros w program name type amount uniform vl Hloc.
  (* the entry point the dispatch statement selects in this world *)
  destruct (dispatch_run type dimension 0 0 0 w Hdim)
    as (fn & _ & Hd & Hf & Hi & Hu).
  assert (Hsame : ∀ g,
            fn_dim g = dimension →
            (type = GL_FLOAT → fn_type g = TFloat) →
            (type ≠ GL_FLOAT → type = GL_INT → fn_type g = TInt) →
            (type ≠ GL_FLOAT → type ≠ GL_INT → fn_type g = TUInt) →
            g = fn).
  { intros g Hgd Hgf Hgi Hgu. apply uniform_fn_shape_inj; [|congruence].
    destruct (decide (type = GL_FLOAT)) as [Ef | Ef];
      [rewrite Hgf, Hf; done |].
    destruct (decide (type = GL_INT)) as [Ei | Ei];
      [rewrite Hgi, Hi; done | rewrite Hgu, Hu; done]. }
  exists fn. split; [|split].
  - destruct Hff as [Hffd Hfft], Hfi' as [Hfid Hfit], Hfu' as [Hfud Hfut].
    repeat split.
    + intros E. apply uniform_fn_shape_inj; [|congruence].
      rewrite Hf by done. congruence.
    + intros E. apply uniform_fn_shape_inj; [|congruence].
      rewrite Hi by congruence. congruence.
    + intros E. apply uniform_fn_shape_inj; [|congruence].
      rewrite Hu by congruence. congruence.
    + intros Ef Ei _. apply uniform_fn_shape_inj; [|congruence].
      rewrite Hu by congruence. congruence.
  - intros Halloc Hlen Hvl.
    destruct (glcSetUniformx_run w program name type dimension vl
                Hdim Hloc Halloc Hlen Hvl)
      as (g & blk & Hrun & _ & Hgd & Hgf & Hgi & Hgu).
    rewrite (Hsame g) in Hrun by done.
    eexists _, _, _, _. split; [exact Hrun|]. split; reflexivity.
  - intros Hamount.
    destruct (glcSetUniformxv_run w program name type dimension amount uniform
                Hdim Hamount Hloc)
      as (g & Hrun & Hgd & Hgf & Hgi & Hgu).
    rewrite (Hsame g) in Hrun by done.
    eexists _, _. split; [exact Hrun|]. split; reflexivity.
Qed.

Lemma uniform_dispatch_witness :
  ∃ w' t data seen,
    glcSetUniformx (hdr := khronos) (env := test_driver (-1) (-1) [("color", 5)])
      3 "color" 77 3 [VaInt 1; VaInt 2; VaInt 3] test_world = Done 1 w'
    ∧ trace w' = trace test_world ++ t
    ∧ uploads t = [Uniform Uniform3uiv 5 1 data seen].
Proof.
  destruct (uniform_dispatch (hdr := khronos)
              (env := test_driver (-1) (-1) [("color", 5)]) 3)
    as (ff & fi & fu & _ & _ & [Hd Ht] & _ & Hall);
    [discriminate | discriminate | discriminate | lia |].
  destruct (Hall test_world 3 "color" 77 1 0 [VaInt 1; VaInt 2; VaInt 3])
    as (fn & (_ & _ & _ & Hfn) & Hx & _); [discriminate|].
  rewrite Hfn in Hx by discriminate.
  assert (fu = Uniform3uiv) as -> by (by apply uniform_fn_shape_inj).
  apply Hx.
  - reflexivity.
  - cbn. lia.
  - repeat constructor; discriminate.
Defined.

(** ** Reading a source file *)

(** Brings every world in the goal to the form [mkWorld ...]. *)
Ltac world_nf :=
  unfold log, set_streams, set_heap, set_objs;
  cbn [disk streams heap objs trace].

Lemma wrap_int_small (z : Z) : - 2 ^ 31 ≤ z ≤ INT_MAX → wrap_int z = z.
Proof.
  unfold wrap_int, INT_MAX. intros Hz.
  rewrite Z.mod_small; lia.
Qed.

Lemma size_t_of_int_small (z : Z) : 0 ≤ z ≤ INT_MAX → size_t_of_int z = z.
Proof.
  unfold size_t_of_int, INT_MAX. intros Hz.
  rewrite Z.mod_small; lia.
Qed.

Lemma byte_code_not_EOF (b : byte) : (byte_code b =? EOF) = false.
Proof. apply Z.eqb_neq. unfold byte_code, EOF. lia. Qed.

(** The driver finds the text of the file, up to its first null byte if it
    has one, in a buffer that holds the file followed by a null byte. *)
Lemma c_string_terminated (bytes : list byte) (rest : list memval) :
  c_string ((MByte <$> bytes) ++ MByte x00 :: rest) = Some (c_text bytes).
Proof.
  induction bytes as [|b bytes IH]; [done|].
  cbn. destruct (Byte.eqb b x00); [done|]. by rewrite IH.
Qed.

Section Reading.
Context {env : Environment}.

(** The counting loop, started anywhere in the file with any count, adds to
    the count the bytes left plus one and leaves the stream at the end. *)
Lemma count_bytes (stream : Z) (bytes : list byte) (n : nat) :
  ∀ (fuel p : nat) (len : Z) (w : World),
    streams w !! stream = Some (mkFILE bytes p) →
    (p + n = length bytes)%nat →
    (n < fuel)%nat →
    - 2 ^ 31 ≤ len →
    len + Z.of_nat n + 1 ≤ INT_MAX →
    do_while fuel (λ length, mret (wrap_int (length + 1)))
      (c ← fgetc stream; mret (negb (c =? EOF))) len w
    = Done (len + Z.of_nat n + 1)
        (mkWorld (disk w)
           (<[stream := mkFILE bytes (length bytes)]> (streams w))
           (heap w) (objs w)
           (trace w ++ (Fgetc stream <$> (byte_code <$> drop p bytes))
                   ++ [Fgetc stream EOF])).
Proof.
  induction n as [|n IH]; intros fuel p len w Hs Hp Hfuel Hlo Hhi;
    (destruct fuel as [|fuel]; [lia|]);
    cbn [do_while]; rewrite bind_run; cbn [mret M_ret];
    rewrite wrap_int_small by lia;
    rewrite !bind_run; unfold fgetc at 1; rewrite Hs; cbn [content pos].
  - rewrite (lookup_ge_None_2 bytes p) by lia.
    cbn. rewrite drop_ge by lia. cbn.
    rewrite insert_id by (rewrite Hs; do 2 f_equal; lia).
    do 2 f_equal. lia.
  - destruct (lookup_lt_is_Some_2 bytes p) as [b Hb]; [lia|].
    rewrite Hb. fold (byte_code b). cbn [mret M_ret].
    rewrite byte_code_not_EOF. cbn [negb].
    rewrite (IH fuel (S p) (len + 1)); [| by cbn; rewrite lookup_insert_eq | lia..].
    f_equal; [lia|]. cbn.
    rewrite insert_insert_eq.
    rewrite (drop_S bytes b p Hb). cbn.
    by rewrite <- app_assoc.
Qed.

(** The four statements that read a file from the start: count, rewind,
    allocate, read.  The buffer ends up holding the file and two null
    bytes. *)
Lemma read_source_run {A} (fuel : nat) (stream : Z) (bytes : list byte)
    (rest : Z → M A) (w : World) :
  streams w !! stream = Some (mkFILE bytes 0) →
  (length bytes < fuel)%nat →
  Z.of_nat (length bytes) + 2 ≤ INT_MAX →
  alloc_ok (heap w) (Z.of_nat (length bytes) + 2) = true →
  (length ← do_while fuel (λ length, mret (wrap_int (length + 1)))
              (c ← fgetc stream; mret (negb (c =? EOF))) 0;
   fseek stream 0 SEEK_SET;;
   source ← calloc (wrap_int (length + 1)) sizeof_char;
   fread source sizeof_char length stream;;
   rest source) w
  = rest (fresh_ptr (heap w))
      (mkWorld (disk w)
         (<[stream := mkFILE bytes (length bytes)]> (streams w))
         (<[fresh_ptr (heap w) := (MByte <$> bytes) ++ [MByte x00; MByte x00]]>
            (heap w))
         (objs w)
         (trace w ++ read_calls stream (fresh_ptr (heap w)) bytes)).
Proof.
  intros Hs Hfuel Hsize Halloc.
  set (N := Z.of_nat (length bytes)) in *.
  rewrite bind_run.
  rewrite (count_bytes stream bytes (length bytes) fuel 0 0 w)
    by (done || lia).
  rewrite drop_0.
  (* fseek *)
  rewrite bind_run. unfold fseek at 1. cbn [streams].
  rewrite lookup_insert_eq. cbn [pos content Z.eqb SEEK_SET orb negb].
  change (0 + 0 <? 0) with false. change (Z.to_nat (0 + 0)) with 0%nat.
  cbn [orb negb].
  world_nf.
  rewrite insert_insert_eq.
  (* calloc *)
  rewrite bind_run. unfold calloc at 1. world_nf.
  replace (0 + Z.of_nat (length bytes) + 1) with (N + 1) by lia.
  rewrite (wrap_int_small (N + 1 + 1)) by (unfold INT_MAX in *; lia).
  rewrite size_t_of_int_small by lia.
  replace ((N + 1 + 1) * sizeof_char) with (N + 2) by (unfold sizeof_char; lia).
  rewrite Halloc. cbv zeta.
  world_nf.
  (* fread *)
  rewrite bind_run. unfold fread at 1. world_nf.
  rewrite !lookup_insert_eq. cbn [pos content].
  rewrite drop_0, size_t_of_int_small by lia.
  replace (Z.to_nat (sizeof_char * (N + 1))) with (S (length bytes))
    by (unfold sizeof_char; lia).
  rewrite take_ge by lia.
  rewrite length_replicate.
  replace (S (length bytes) <=? Z.to_nat (N + 2))%nat with true
    by (symmetry; apply Nat.leb_le; lia).
  replace (Z.to_nat (N + 2)) with (length bytes + 2)%nat by lia.
  rewrite drop_replicate_add.
  world_nf. cbn [Nat.add replicate].
  rewrite !insert_insert_eq.
  unfold read_calls. fold N.
  replace (N / sizeof_char) with N by (unfold sizeof_char; by rewrite Z.div_1_r).
  replace (N + 1 + 1) with (N + 2) by lia.
  by rewrite <- !app_assoc.
Qed.

(** The driver is handed the text of the file. *)
Lemma glShaderSource_run (shader source : Z) (bytes : list byte)
    (rest : list memval) (w : World) :
  heap w !! source = Some ((MByte <$> bytes) ++ MByte x00 :: rest) →
  glShaderSource shader 1 [source] NULL w
  = Done tt (log (ShaderSource shader 1 [c_text bytes]) w).
Proof.
  intros Hsrc. unfold glShaderSource. change (Z.to_nat 1) with 1%nat.
  cbn. rewrite Hsrc. cbn. by rewrite c_string_terminated.
Qed.

End Reading.

(** ** Building a shader program *)

(** Lookups through the inserts and deletes a run leaves behind. *)
Ltac map_lookup :=
  repeat first
    [ rewrite lookup_insert_eq
    | rewrite lookup_delete_eq
    | rewrite lookup_insert_ne by done
    | rewrite lookup_delete_ne by done ].

(** Equality of two maps that differ by inserts and deletes. *)
Ltac map_restore :=
  apply map_eq; intros ?;
  repeat (rewrite lookup_insert || rewrite lookup_delete);
  repeat case_decide; subst; congruence.

Section Builder.
Context {hdr : GLHeader} {env : Environment}.

(** One statement of the run: unfold the call at the head and bring the
    worlds back to normal form. *)
Ltac run_head f :=
  rewrite bind_run; unfold f at 1; world_nf; cbv beta iota zeta.

Ltac finish_run :=
  cbn [mret M_ret]; eexists _, _; (split; [reflexivity|]);
  rewrite <- !app_assoc; cbn [app].

Lemma glcMakeShaderProgram_outcome (fuel : nat) (program : Z)
    (vertexShaderPath fragmentShaderPath : string) (w : World) :
  fits fuel w vertexShaderPath →
  fits fuel w fragmentShaderPath →
  is_Some (objs w !! program) →
  ∃ r w',
    glcMakeShaderProgram fuel program vertexShaderPath fragmentShaderPath w
    = Done r w'
    ∧ build_outcome w program vertexShaderPath fragmentShaderPath r w'.
Proof.
  intros Hvfit Hffit [old Hprogram].
  unfold glcMakeShaderProgram. cbv zeta.
  (* vertexFile = fopen(vertexShaderPath, "rb") *)
  run_head @fopen.
  destruct (disk w !! vertexShaderPath) as [vbytes|] eqn:Hv.
  2: { cbn [Z.eqb NULL]. run_head @fprintf. finish_run.
       by apply vertex_open_error. }
  destruct (Hvfit vbytes Hv) as (Hvfuel & Hvsize & Hvalloc).
  pose proof (fresh_ptr_not_null (streams w)) as Hvf.
  pose proof (fresh_ptr_fresh (streams w)) as Hvf'.
  set (vertexFile := fresh_ptr (streams w)) in *. clearbody vertexFile.
  rewrite (proj2 (Z.eqb_neq _ _) Hvf).
  (* fragmentFile = fopen(fragmentShaderPath, "rb") *)
  run_head @fopen.
  destruct (disk w !! fragmentShaderPath) as [fbytes|] eqn:Hf.
  2: { cbn [Z.eqb NULL]. run_head @fprintf. run_head @fclose. map_lookup.
       rewrite delete_insert_eq, delete_id by done. finish_run.
       by eapply fragment_open_error. }
  destruct (Hffit fbytes Hf) as (Hffuel & Hfsize & Hfalloc).
  pose proof (fresh_ptr_not_null (<[vertexFile := mkFILE vbytes 0]> (streams w)))
    as Hff.
  pose proof (fresh_ptr_fresh (<[vertexFile := mkFILE vbytes 0]> (streams w)))
    as Hff'.
  set (fragmentFile := fresh_ptr (<[vertexFile := _]> _)) in *.
  clearbody fragmentFile.
  assert (Hne : vertexFile ≠ fragmentFile).
  { intros E. rewrite <- E, lookup_insert_eq in Hff'. discriminate. }
  assert (Hne' : fragmentFile ≠ vertexFile) by done.
  rewrite lookup_insert_ne in Hff' by done.
  rewrite (proj2 (Z.eqb_neq _ _) Hff).
  (* Compile Vertex Shader *)
  rewrite (read_source_run fuel vertexFile vbytes);
    [| by cbn; map_lookup | done..].
  world_nf.
  pose proof (fresh_ptr_not_null (heap w)) as Hsrc.
  pose proof (fresh_ptr_fresh (heap w)) as Hsrc'.
  set (source := fresh_ptr (heap w)) in *. clearbody source.
  run_head @glCreateShader.
  match goal with
  | |- context [drv_CreateShader ?h ?ty] =>
      generalize (drv_CreateShader h ty); intros vertexShader
  end.
  destruct (Z.eqb_spec vertexShader 0) as [-> | Hvs].
  { run_head @fprintf.
    run_head @fclose. map_lookup.
    run_head @fclose. map_lookup.
    run_head @free. rewrite (proj2 (Z.eqb_neq _ _) Hsrc). map_lookup.
    replace (delete source _) with (heap w) by (symmetry; map_restore).
    replace (delete fragmentFile _) with (streams w) by (symmetry; map_restore).
    finish_run. by eapply vertex_create_error. }
  rewrite bind_run, (glShaderSource_run _ _ vbytes [MByte x00])
    by (cbn; by map_lookup).
  world_nf. cbv beta iota.
  run_head @glCompileShader.
  run_head @glGetShaderiv.
  match goal with
  | |- context [drv_GetShaderiv ?h ?s ?p] =>
      generalize (drv_GetShaderiv h s p); intros success
  end.
  destruct (Z.eqb_spec success 0) as [-> | Hsuccess].
  { run_head @glGetShaderInfoLog.
    match goal with
    | |- context [String.substring ?a ?b ?c] =>
        generalize (String.substring a b c); intros infoLog
    end.
    run_head @fprintf.
    run_head @fclose. map_lookup.
    run_head @fclose. map_lookup.
    run_head @free. rewrite (proj2 (Z.eqb_neq _ _) Hsrc). map_lookup.
    replace (delete source _) with (heap w) by (symmetry; map_restore).
    replace (delete fragmentFile _) with (streams w) by (symmetry; map_restore).
    finish_run. by eapply vertex_compile_error. }
  run_head @free. rewrite (proj2 (Z.eqb_neq _ _) Hsrc). map_lookup.
  replace (delete source _) with (heap w) by (symmetry; map_restore).
  (* Compile Fragment Shader *)
  rewrite (read_source_run fuel fragmentFile fbytes);
    [| by cbn; map_lookup | done..].
  world_nf.
  pose proof (fresh_ptr_not_null (heap w)) as Hsrc2.
  pose proof (fresh_ptr_fresh (heap w)) as Hsrc2'.
  set (source' := fresh_ptr (heap w)) in *. clearbody source'.
  run_head @glCreateShader.
  match goal with
  | |- context [drv_CreateShader ?h ?ty] =>
      generalize (drv_CreateShader h ty); intros fragmentShader
  end.
  destruct (Z.eqb_spec fragmentShader 0) as [-> | Hfs].
  { run_head @fprintf.
    run_head @fclose. map_lookup.
    run_head @fclose. map_lookup.
    run_head @free. rewrite (proj2 (Z.eqb_neq _ _) Hsrc2). map_lookup.
    replace (delete source' _) with (heap w) by (symmetry; map_restore).
    replace (delete fragmentFile _) with (streams w) by (symmetry; map_restore).
    finish_run. by eapply fragment_create_error. }
  rewrite bind_run, (glShaderSource_run _ _ fbytes [MByte x00])
    by (cbn; by map_lookup).
  world_nf. cbv beta iota.
  run_head @glCompileShader.
  run_head @glGetShaderiv.
  match goal with
  | |- context [drv_GetShaderiv ?h ?s ?p] =>
      generalize (drv_GetShaderiv h s p); intros success'
  end.
  destruct (Z.eqb_spec success' 0) as [-> | Hsuccess'].
  { run_head @glGetShaderInfoLog.
    match goal with
    | |- context [String.substring ?a ?b ?c] =>
        generalize (String.substring a b c); intros infoLog
    end.
    run_head @fprintf.
    run_head @fclose. map_lookup.
    run_head @fclose. map_lookup.
    run_head @free. rewrite (proj2 (Z.eqb_neq _ _) Hsrc2). map_lookup.
    replace (delete source' _) with (heap w) by (symmetry; map_restore).
    replace (delete fragmentFile _) with (streams w) by (symmetry; map_restore).
    finish_run. by eapply fragment_compile_error. }
  run_head @fclose. map_lookup.
  run_head @fclose. map_lookup.
  run_head @free. rewrite (proj2 (Z.eqb_neq _ _) Hsrc2). map_lookup.
  replace (delete source' _) with (heap w) by (symmetry; map_restore).
  replace (delete fragmentFile _) with (streams w) by (symmetry; map_restore).
  (* Create Shader Program *)
  run_head @glCreateProgram.
  match goal with
  | |- context [drv_CreateProgram ?h] =>
      generalize (drv_CreateProgram h); intros handle
  end.
  run_head @store_GLuint. rewrite Hprogram.
  run_head @load_GLuint. map_lookup.
  destruct (Z.eqb_spec handle 0) as [-> | Hhandle].
  { run_head @fprintf. finish_run. by eapply program_create_error. }
  run_head @load_GLuint. map_lookup. run_head @glAttachShader.
  run_head @load_GLuint. map_lookup. run_head @glAttachShader.
  run_head @load_GLuint. map_lookup. run_head @glLinkProgram.
  run_head @load_GLuint. map_lookup. run_head @glGetProgramiv.
  match goal with
  | |- context [drv_GetProgramiv ?h ?s ?p] =>
      generalize (drv_GetProgramiv h s p); intros success''
  end.
  destruct (Z.eqb_spec success'' 0) as [-> | Hsuccess''].
  { run_head @load_GLuint. map_lookup. run_head @glGetProgramInfoLog.
    match goal with
    | |- context [String.substring ?a ?b ?c] =>
        generalize (String.substring a b c); intros infoLog
    end.
    run_head @fprintf. finish_run. by eapply link_error. }
  (* cleanup *)
  run_head @glDeleteShader. run_head @glDeleteShader.
  finish_run. by eapply build_success.
Qed.

(** The two failures of [fopen] need nothing of the world: no fuel, no
    memory, no valid [program]. *)
Lemma glcMakeShaderProgram_vertex_missing (fuel : nat) (program : Z)
    (vertexShaderPath fragmentShaderPath : string) (w : World) :
  disk w !! vertexShaderPath = None →
  glcMakeShaderProgram fuel program vertexShaderPath fragmentShaderPath w
  = Done (-1)
      (mkWorld (disk w) (streams w) (heap w) (objs w)
         (trace w ++
            [Fopen vertexShaderPath "rb" NULL;
             Fprintf stderr ("Error opening vertex shader: %s" +:+ nl)
               [PStr vertexShaderPath]])).
Proof.
  intros Hv. unfold glcMakeShaderProgram. cbv zeta.
  run_head @fopen. rewrite Hv. cbn [Z.eqb NULL].
  run_head @fprintf. cbn [mret M_ret]. by rewrite <- app_assoc.
Qed.

Lemma glcMakeShaderProgram_fragment_missing (fuel : nat) (program : Z)
    (vertexShaderPath fragmentShaderPath : string) (w : World)
    (vbytes : list byte) :
  disk w !! vertexShaderPath = Some vbytes →
  disk w !! fragmentShaderPath = None →
  glcMakeShaderProgram fuel program vertexShaderPath fragmentShaderPath w
  = Done (-1)
      (mkWorld (disk w) (streams w) (heap w) (objs w)
         (trace w ++
            [Fopen vertexShaderPath "rb" (fresh_ptr (streams w));
             Fopen fragmentShaderPath "rb" NULL;
             Fprintf stderr ("Error opening fragment shader: %s" +:+ nl)
               [PStr fragmentShaderPath];
             Fclose (fresh_ptr (streams w))])).
Proof.
  intros Hv Hf. unfold glcMakeShaderProgram. cbv zeta.
  run_head @fopen. rewrite Hv.
  rewrite (proj2 (Z.eqb_neq _ _) (fresh_ptr_not_null (streams w))).
  run_head @fopen. rewrite Hf. cbn [Z.eqb NULL].
  run_head @fprintf. run_head @fclose. map_lookup.
  rewrite delete_insert_eq, delete_id by apply fresh_ptr_fresh.
  cbn [mret M_ret]. by rewrite <- !app_assoc.
Qed.

End Builder.

(** Nothing in the calls that read a file is a driver call. *)
Lemma existsb_read_calls (p : Call → bool) (stream source : Z)
    (bytes : list byte) :
  (∀ s r, p (Fgetc s r) = false) →
  (∀ s o wh r, p (Fseek s o wh r) = false) →
  (∀ n sz r, p (Calloc n sz r) = false) →
  (∀ q sz n s r, p (Fread q sz n s r) = false) →
  existsb p (read_calls stream source bytes) = false.
Proof.
  intros Hgetc Hseek Hcalloc Hread. unfold read_calls.
  rewrite existsb_app. cbn. rewrite Hgetc, Hseek, Hcalloc, Hread. cbn.
  rewrite orb_false_r.
  induction bytes as [|b bytes IH]; [done|]. cbn. by rewrite Hgetc.
Qed.

(** Decides [existsb] over the trace of an outcome. *)
Ltac scan_trace :=
  repeat (rewrite existsb_app || rewrite existsb_read_calls by done);
  cbn [existsb compile_calls app fails_early call_failed creates_program
       deletes_shader orb Z.eqb NULL];
  repeat match goal with
         | H : ?x ≠ 0 |- context [?x =? 0] =>
             rewrite (proj2 (Z.eqb_neq x 0) H)
         | H : ?x ≠ NULL |- context [?x =? NULL] =>
             rewrite (proj2 (Z.eqb_neq x NULL) H)
         end;
  cbn [orb].

(** Every run gives back the files and the buffers it took, and a run that
    fails deletes no shader unit. *)
Lemma glcMakeShaderProgram_releases {hdr : GLHeader} {env : Environment}
    (fuel : nat) (program : Z) (vertexShaderPath fragmentShaderPath : string)
    (w : World) :
  fits fuel w vertexShaderPath →
  fits fuel w fragmentShaderPath →
  is_Some (objs w !! program) →
  ∃ r w' t,
    glcMakeShaderProgram fuel program vertexShaderPath fragmentShaderPath w
    = Done r w'
    ∧ trace w' = trace w ++ t
    ∧ streams w' = streams w
    ∧ heap w' = heap w
    ∧ (r = -1 → existsb deletes_shader t = false).
Proof.
  intros Hv Hf Hp.
  destruct (glcMakeShaderProgram_outcome fuel program vertexShaderPath
              fragmentShaderPath w Hv Hf Hp) as (r & w' & Hrun & Hout).
  exists r, w'.
  destruct Hout; eexists; (split; [exact Hrun|]);
    (split; [reflexivity|]); (split; [reflexivity|]); (split; [reflexivity|]);
    intros Hr; try discriminate Hr; by scan_trace.
Qed.

(** Whatever the driver answers, the buffer for a vertex source of [N]
    bytes is allocated with [N + 2] bytes and the read asks for [N + 1]. *)
Lemma vertex_buffer_size {hdr : GLHeader} {env : Environment}
    (fuel : nat) (program : Z) (vertexShaderPath fragmentShaderPath : string)
    (w : World) (vbytes fbytes : list byte) :
  fits fuel w vertexShaderPath →
  fits fuel w fragmentShaderPath →
  is_Some (objs w !! program) →
  disk w !! vertexShaderPath = Some vbytes →
  disk w !! fragmentShaderPath = Some fbytes →
  ∃ r w' vertexFile source,
    glcMakeShaderProgram fuel program vertexShaderPath fragmentShaderPath w
    = Done r w'
    ∧ Calloc (Z.of_nat (length vbytes) + 2) sizeof_char source ∈ trace w'
    ∧ Fread source sizeof_char (Z.of_nat (length vbytes) + 1) vertexFile
        (Z.of_nat (length vbytes)) ∈ trace w'.
Proof.
  intros Hv Hf Hp Hvb Hfb.
  destruct (glcMakeShaderProgram_outcome fuel program vertexShaderPath
              fragmentShaderPath w Hv Hf Hp) as (r & w' & Hrun & Hout).
  exists r, w'.
  destruct Hout; simplify_eq;
    exists vertexFile, source; (split; [exact Hrun|]);
    cbn [trace]; unfold read_calls; set_solver.
Qed.

(** ** The claims about [glcMakeShaderProgram] *)

(** C8.  When the vertex file cannot be opened, [glcMakeShaderProgram]
    returns -1 after one [fopen], that of the vertex path, and a
    diagnostic: the fragment file is not touched.  When the vertex file
    opens and the fragment file does not, the run returns -1 and its last
    call closes the vertex stream, so that the open streams are those from
    before the call. *)
Theorem fopen_failures {hdr : GLHeader} {env : Environment}
    (fuel : nat) (program : Z) (vertexShaderPath fragmentShaderPath : string)
    (w : World) :
  (disk w !! vertexShaderPath = None →
   ∃ w',
     glcMakeShaderProgram fuel program vertexShaderPath fragmentShaderPath w
     = Done (-1) w'
     ∧ trace w'
       = trace w ++
           [Fopen vertexShaderPath "rb" NULL;
            Fprintf stderr ("Error opening vertex shader: %s" +:+ nl)
              [PStr vertexShaderPath]]
     ∧ streams w' = streams w)
  ∧ (is_Some (disk w !! vertexShaderPath) →
     disk w !! fragmentShaderPath = None →
     ∃ w' vertexFile,
       glcMakeShaderProgram fuel program vertexShaderPath fragmentShaderPath w
       = Done (-1) w'
       ∧ vertexFile ≠ NULL
       ∧ trace w'
         = trace w ++
             [Fopen vertexShaderPath "rb" vertexFile;
              Fopen fragmentShaderPath "rb" NULL;
              Fprintf stderr ("Error opening fragment shader: %s" +:+ nl)
                [PStr fragmentShaderPath];
              Fclose vertexFile]
       ∧ streams w' = streams w).
Proof.
  split.
  - intros Hv. eexists. split; [by apply glcMakeShaderProgram_vertex_missing|].
    done.
  - intros [vbytes Hv] Hf. eexists _, (fresh_ptr (streams w)).
    split; [by eapply glcMakeShaderProgram_fragment_missing|].
    split; [apply fresh_ptr_not_null | done].
Qed.

Lemma fopen_failures_witness :
  (∃ w',
     glcMakeShaderProgram (hdr := khronos) (env := test_driver (-1) (-1) [])
       10 100 "missing.glsl" "f.glsl" test_world = Done (-1) w'
     ∧ trace w'
       = trace test_world ++
           [Fopen "missing.glsl" "rb" NULL;
            Fprintf stderr ("Error opening vertex shader: %s" +:+ nl)
              [PStr "missing.glsl"]]
     ∧ streams w' = streams test_world)
  ∧ (∃ w' vertexFile,
       glcMakeShaderProgram (hdr := khronos) (env := test_driver (-1) (-1) [])
         10 100 "v.glsl" "missing.glsl" test_world = Done (-1) w'
       ∧ vertexFile ≠ NULL
       ∧ trace w'
         = trace test_world ++
             [Fopen "v.glsl" "rb" vertexFile;
              Fopen "missing.glsl" "rb" NULL;
              Fprintf stderr ("Error opening fragment shader: %s" +:+ nl)
                [PStr "missing.glsl"];
              Fclose vertexFile]
       ∧ streams w' = streams test_world).
Proof.
  split.
  - apply (proj1 (fopen_failures (hdr := khronos) 10 100
                    "missing.glsl" "f.glsl" test_world)).
    reflexivity.
  - apply (proj2 (fopen_failures (hdr := khronos) 10 100
                    "v.glsl" "missing.glsl" test_world)).
    + eexists. reflexivity.
    + reflexivity.
Defined.

(** C10.  [*program] is written at the program-creation step and nowhere
    before: a run that does not call [glCreateProgram] leaves the caller's
    objects as they were, and a run in which a file does not open, a
    shader object is not created or a compilation fails returns -1 without
    calling [glCreateProgram]. *)
Theorem program_untouched_by_early_failure
    {hdr : GLHeader} {env : Environment}
    (fuel : nat) (program : Z) (vertexShaderPath fragmentShaderPath : string)
    (w : World) :
  fits fuel w vertexShaderPath →
  fits fuel w fragmentShaderPath →
  is_Some (objs w !! program) →
  ∃ r w' t,
    glcMakeShaderProgram fuel program vertexShaderPath fragmentShaderPath w
    = Done r w'
    ∧ trace w' = trace w ++ t
    ∧ (existsb creates_program t = false → objs w' = objs w)
    ∧ (existsb fails_early t = true →
       r = -1 ∧ existsb creates_program t = false ∧ objs w' = objs w).
Proof.
  intros Hv Hf Hp.
  destruct (glcMakeShaderProgram_outcome fuel program vertexShaderPath
              fragmentShaderPath w Hv Hf Hp) as (r & w' & Hrun & Hout).
  exists r, w'.
  destruct Hout; eexists; (split; [exact Hrun|]); (split; [reflexivity|]);
    scan_trace; split; intros Hc; done.
Qed.

Lemma test_world_fits (env : Environment) (path : string) :
  (∀ h n, @alloc_ok env h n = true) →
  fits 10 test_world path.
Proof.
  intros Halloc bytes Hb. rewrite Halloc.
  assert (length bytes ≤ 3)%nat as Hlen.
  { cbn in Hb.
    destruct (decide (path = "v.glsl")) as [-> | Hv];
      [rewrite lookup_insert_eq in Hb; by simplify_eq|].
    rewrite lookup_insert_ne in Hb by done.
    destruct (decide (path = "f.glsl")) as [-> | Hf];
      [rewrite lookup_insert_eq in Hb; simplify_eq; cbn; lia|].
    by rewrite lookup_insert_ne in Hb. }
  unfold INT_MAX. repeat split; lia.
Qed.

Lemma program_untouched_by_early_failure_witness :
  ∃ w',
    glcMakeShaderProgram (hdr := khronos) (env := test_driver (-1) 1 [])
      10 100 "v.glsl" "f.glsl" test_world = Done (-1) w'
    ∧ objs w' = objs test_world.
Proof.
  destruct (program_untouched_by_early_failure (hdr := khronos)
              (env := test_driver (-1) 1 []) 10 100 "v.glsl" "f.glsl" test_world)
    as (r & w' & t & Hrun & Ht & _ & Hearly).
  - by apply test_world_fits.
  - by apply test_world_fits.
  - eexists. reflexivity.
  - pose proof Hrun as Hrun'. vm_compute in Hrun'.
    injection Hrun' as Hr Hw. subst r w'. cbn in Ht. subst t.
    destruct Hearly as (_ & _ & Hobjs); [reflexivity|].
    eexists. split; [exact Hrun | exact Hobjs].
Defined.

(** C2.  When both files open, both shader objects and the program object
    are created, both compilations and the link succeed (no call of the
    run reports a failure), [glcMakeShaderProgram] returns 1, the caller's
    handle holds the non-zero name of the program, and the last two calls
    of the run delete the vertex and the fragment shader units it
    created. *)
Theorem build_succeeds {hdr : GLHeader} {env : Environment}
    (fuel : nat) (program : Z) (vertexShaderPath fragmentShaderPath : string)
    (w : World) :
  fits fuel w vertexShaderPath →
  fits fuel w fragmentShaderPath →
  is_Some (objs w !! program) →
  ∃ r w' t,
    glcMakeShaderProgram fuel program vertexShaderPath fragmentShaderPath w
    = Done r w'
    ∧ trace w' = trace w ++ t
    ∧ (existsb call_failed t = false →
       r = 1
       ∧ ∃ vertexShader fragmentShader handle t',
           objs w' !! program = Some handle
           ∧ handle ≠ 0
           ∧ CreateProgram handle ∈ t'
           ∧ vertexShader ≠ 0
           ∧ CreateShader GL_VERTEX_SHADER vertexShader ∈ t'
           ∧ fragmentShader ≠ 0
           ∧ CreateShader GL_FRAGMENT_SHADER fragmentShader ∈ t'
           ∧ t = t' ++ [DeleteShader vertexShader; DeleteShader fragmentShader]).
Proof.
  intros Hv Hf Hp.
  destruct (glcMakeShaderProgram_outcome fuel program vertexShaderPath
              fragmentShaderPath w Hv Hf Hp) as (r & w' & Hrun & Hout).
  exists r, w'.
  destruct Hout; eexists; (split; [exact Hrun|]); (split; [reflexivity|]);
    scan_trace; intros Hc; try discriminate Hc.
  split; [done|].
  exists vertexShader, fragmentShader, handle.
  eexists
    ([Fopen vertexShaderPath "rb" vertexFile;
      Fopen fragmentShaderPath "rb" fragmentFile]
     ++ read_calls vertexFile source vbytes
     ++ compile_calls GL_VERTEX_SHADER vertexShader vbytes success
     ++ [Free source]
     ++ read_calls fragmentFile source' fbytes
     ++ compile_calls GL_FRAGMENT_SHADER fragmentShader fbytes success'
     ++ [Fclose vertexFile; Fclose fragmentFile; Free source';
         CreateProgram handle;
         AttachShader handle vertexShader; AttachShader handle fragmentShader;
         LinkProgram handle; GetProgramiv handle GL_LINK_STATUS success'']).
  split; [cbn; apply lookup_insert_eq|].
  split; [done|]. split; [unfold compile_calls; set_solver|].
  split; [done|]. split; [unfold compile_calls; set_solver|].
  split; [done|]. split; [unfold compile_calls; set_solver|].
  rewrite <- !app_assoc. reflexivity.
Qed.

Lemma build_succeeds_witness :
  ∃ w',
    glcMakeShaderProgram (hdr := khronos) (env := test_driver (-1) (-1) [])
      10 100 "v.glsl" "f.glsl" test_world = Done 1 w'
    ∧ objs w' !! 100 = Some 3
    ∧ ∃ t' vertexShader fragmentShader,
        trace w' = t' ++ [DeleteShader vertexShader; DeleteShader fragmentShader].
Proof.
  destruct (build_succeeds (hdr := khronos)
              (env := test_driver (-1) (-1) []) 10 100 "v.glsl" "f.glsl"
              test_world)
    as (r & w' & t & Hrun & Ht & Hok).
  - by apply test_world_fits.
  - by apply test_world_fits.
  - eexists. reflexivity.
  - pose proof Hrun as Hrun'. vm_compute in Hrun'.
    injection Hrun' as Hr Hw. subst r w'. cbn in Ht. subst t.
    destruct Hok as (_ & vs & fs & h & t' & Hobj & _ & _ & _ & _ & _ & _ & Hlast);
      [reflexivity|].
    eexists. split; [exact Hrun|]. split; [reflexivity|].
    exists t', vs, fs. exact Hlast.
Defined.

(** C1, on the code.  Run on a driver that refuses the program object, and
    on one that refuses the link, [glcMakeShaderProgram] returns -1 with
    its files closed and its buffers freed, but without a single
    [glDeleteShader]: the two compiled shader units, 1 and 2, stay alive
    in the driver. *)
Theorem late_failure_leaks_shader_units :
  (∃ w',
     glcMakeShaderProgram (hdr := khronos) (env := test_driver 2 (-1) [])
       10 100 "v.glsl" "f.glsl" test_world = Done (-1) w'
     ∧ existsb creates_program (trace w') = true
     ∧ streams w' = streams test_world
     ∧ heap w' = heap test_world
     ∧ existsb deletes_shader (trace w') = false
     ∧ live_shaders (trace w') = [1; 2])
  ∧ (∃ w',
       glcMakeShaderProgram (hdr := khronos) (env := test_driver (-1) 2 [])
         10 100 "v.glsl" "f.glsl" test_world = Done (-1) w'
       ∧ GetProgramiv 3 (@GL_LINK_STATUS khronos) 0 ∈ trace w'
       ∧ streams w' = streams test_world
       ∧ heap w' = heap test_world
       ∧ existsb deletes_shader (trace w') = false
       ∧ live_shaders (trace w') = [1; 2]).
Proof.
  split; eexists; (split; [vm_compute; reflexivity|]); cbn [trace streams heap].
  - repeat split.
  - split; [|repeat split]. apply list_elem_of_In. vm_compute. tauto.
Qed.

(** C4, on the code.  For the three-byte vertex source of [test_world] the
    counting loop calls [fgetc] four times and leaves 4 in [length]: the
    buffer is allocated with 5 bytes, not 4, and the read asks for 4
    bytes and gets 3.  The text handed to the driver is the file. *)
Theorem source_buffer_is_one_byte_too_long :
  disk test_world !! "v.glsl" = Some [x61; x62; x63]
  ∧ ∃ w',
      glcMakeShaderProgram (hdr := khronos) (env := test_driver (-1) (-1) [])
        10 100 "v.glsl" "f.glsl" test_world = Done 1 w'
      ∧ List.filter (λ c, match c with Fgetc 1 _ => true | _ => false end)
          (trace w')
        = [Fgetc 1 97; Fgetc 1 98; Fgetc 1 99; Fgetc 1 EOF]
      ∧ Calloc 5 sizeof_char 1 ∈ trace w'
      ∧ Fread 1 sizeof_char 4 1 3 ∈ trace w'
      ∧ ShaderSource 1 1 [[x61; x62; x63]] ∈ trace w'.
Proof.
  split; [reflexivity|].
  eexists. split; [vm_compute; reflexivity|]. cbn [trace].
  split; [reflexivity|].
  repeat split; apply list_elem_of_In; vm_compute; tauto.
Qed.

(** * Further properties of the setters *)

(** [glcSetUniformxv] always returns, touches nothing but the trace, and
    returns 1 exactly when the dimension is in 1..4, the amount is positive
    and the name resolves.  Then it prints nothing, makes the program
    current and uploads once; otherwise it returns -1, prints one
    diagnostic, leaves the current program alone and uploads nothing. *)
Theorem glcSetUniformxv_result {hdr : GLHeader} {env : Environment}
    (w : World) (program : Z) (name : string)
    (type dimension amount uniform : Z) :
  ∃ r t,
    glcSetUniformxv program name type dimension amount uniform w
    = Done r (mkWorld (disk w) (streams w) (heap w) (objs w) (trace w ++ t))
    ∧ (r = 1
       ∧ (1 ≤ dimension ≤ 4 ∧ 0 < amount
          ∧ drv_GetUniformLocation (trace w) program name ≠ -1)
       ∧ diagnostics t = []
       ∧ List.filter uses_program t = [UseProgram program]
       ∧ length (uploads t) = 1%nat
       ∨ r = -1
       ∧ ¬ (1 ≤ dimension ≤ 4 ∧ 0 < amount
            ∧ drv_GetUniformLocation (trace w) program name ≠ -1)
       ∧ length (diagnostics t) = 1%nat
       ∧ List.filter uses_program t = []
       ∧ uploads t = []).
Proof.
  destruct (decide (1 ≤ dimension ≤ 4)) as [Hdim | Hdim].
  2: { rewrite glcSetUniformxv_bad_dimension by lia.
       eexists _, [_]. split; [reflexivity|]. right.
       split; [done|]. split; [tauto|]. by repeat split. }
  destruct (decide (0 < amount)) as [Hamount | Hamount].
  2: { rewrite glcSetUniformxv_bad_amount by (done || lia).
       eexists _, [_]. split; [reflexivity|]. right.
       split; [done|]. split; [tauto|]. by repeat split. }
  destruct (decide (drv_GetUniformLocation (trace w) program name = -1))
    as [Hloc | Hloc].
  - rewrite glcSetUniformxv_unknown_uniform by done.
    eexists _, [_; _]. split.
    + unfold log. cbn. by rewrite <- app_assoc.
    + right. split; [done|]. split; [tauto|]. by repeat split.
  - destruct (glcSetUniformxv_run w program name type dimension amount uniform
                Hdim Hamount Hloc) as (fn & Hrun & _).
    eexists _, _. split; [exact Hrun|]. left. repeat split; done || lia.
Qed.

(** [glcSetUniformMatx] always returns, touches nothing but the trace, and
    returns 1 exactly when the dimension is in 2..4 and the name resolves,
    whatever the amount and the transpose flag. *)
Theorem glcSetUniformMatx_result {env : Environment}
    (w : World) (program : Z) (name : string)
    (dimension amount transpose uniform : Z) :
  ∃ r t,
    glcSetUniformMatx program name dimension amount transpose uniform w
    = Done r (mkWorld (disk w) (streams w) (heap w) (objs w) (trace w ++ t))
    ∧ (r = 1
       ∧ (2 ≤ dimension ≤ 4
          ∧ drv_GetUniformLocation (trace w) program name ≠ -1)
       ∧ diagnostics t = []
       ∧ List.filter uses_program t = [UseProgram program]
       ∧ length (uploads t) = 1%nat
       ∨ r = -1
       ∧ ¬ (2 ≤ dimension ≤ 4
            ∧ drv_GetUniformLocation (trace w) program name ≠ -1)
       ∧ length (diagnostics t) = 1%nat
       ∧ List.filter uses_program t = []
       ∧ uploads t = []).
Proof.
  destruct (decide (2 ≤ dimension ≤ 4)) as [Hdim | Hdim].
  2: { rewrite glcSetUniformMatx_bad_dimension by lia.
       eexists _, [_]. split; [reflexivity|]. right.
       split; [done|]. split; [tauto|]. by repeat split. }
  destruct (decide (drv_GetUniformLocation (trace w) program name = -1))
    as [Hloc | Hloc].
  - rewrite glcSetUniformMatx_unknown_uniform by done.
    eexists _, [_; _]. split.
    + unfold log. cbn. by rewrite <- app_assoc.
    + right. split; [done|]. split; [tauto|]. by repeat split.
  - destruct (glcSetUniformMatx_run w program name dimension amount transpose
                uniform Hdim Hloc) as (fn & Hrun & _).
    eexists _, _. split; [exact Hrun|]. left. repeat split; done || lia.
Qed.

(** When the allocator refuses the buffer, [glcSetUniformx] returns -1 with
    the allocation diagnostic and without an upload, but only after it has
    looked the name up and made the program current. *)
Theorem glcSetUniformx_out_of_memory {hdr : GLHeader} {env : Environment}
    (w : World) (program : Z) (name : string) (type dimension : Z)
    (vl : list va_slot) :
  1 ≤ dimension ≤ 4 →
  drv_GetUniformLocation (trace w) program name ≠ -1 →
  alloc_ok (heap w) (4 * dimension) = false →
  glcSetUniformx program name type dimension vl w
  = Done (-1)
      (mkWorld (disk w) (streams w) (heap w) (objs w)
         (trace w ++
            [GetUniformLocation program name
               (drv_GetUniformLocation (trace w) program name);
             UseProgram program;
             Malloc (4 * dimension) NULL;
             AllocationError])).
Proof.
  intros Hdim Hloc Halloc. unfold glcSetUniformx.
  rewrite dimension_accepted by done.
  rewrite bind_run. unfold glGetUniformLocation at 1. cbv zeta.
  rewrite (proj2 (Z.eqb_neq _ _) Hloc).
  rewrite bind_run. unfold glUseProgram at 1.
  replace (if type =? GL_FLOAT then sizeof_GLfloat * dimension
           else if type =? GL_INT then sizeof_GLint * dimension
           else sizeof_GLuint * dimension)
    with (4 * dimension)
    by (by destruct (type =? GL_FLOAT), (type =? GL_INT)).
  rewrite bind_run. unfold malloc at 1. cbn [heap log].
  rewrite Halloc. cbn [Z.eqb NULL].
  rewrite bind_run. unfold fprintf at 1. cbn [mret M_ret].
  unfold log. cbn. by rewrite <- !app_assoc.
Qed.

Lemma glcSetUniformx_out_of_memory_witness :
  glcSetUniformx (hdr := khronos)
    (env := out_of_memory (test_driver (-1) (-1) [("color", 5)]))
    3 "color" (@GL_FLOAT khronos) 3 [] test_world
  = Done (-1)
      (mkWorld (disk test_world) (streams test_world) (heap test_world)
         (objs test_world)
         (trace test_world ++
            [GetUniformLocation 3 "color" 5; UseProgram 3; Malloc (4 * 3) NULL;
             AllocationError])).
Proof.
  apply (glcSetUniformx_out_of_memory (hdr := khronos)
           (env := out_of_memory (test_driver (-1) (-1) [("color", 5)]))
           test_world 3 "color" (@GL_FLOAT khronos) 3 []).
  - lia.
  - discriminate.
  - reflexivity.
Defined.

Section Arguments.
Context {hdr : GLHeader} {env : Environment}.

(** The loop of [glcSetUniformx], started at index [i] behind the cells
    [pre], writes the images of the next [n] variadic arguments and leaves
    the others in the list. *)
Lemma fill_loop_contents (type data : Z) (n : nat) :
  ∀ (i : Z) (vl : list va_slot) (w : World) (pre rest : list memval),
    heap w !! data = Some (pre ++ rest) →
    0 ≤ i →
    length pre = Z.to_nat (4 * i) →
    (4 * n ≤ length rest)%nat →
    (n ≤ length vl)%nat →
    Forall (slot_ok type) vl →
    for_loop n i (λ i vl,
       if type =? GL_FLOAT then
         '(d, vl) ← va_arg_double vl;
         store4 data i (SFloat (GLfloat_of_double d));; mret vl
       else if type =? GL_INT then
         '(v, vl) ← va_arg_int vl;
         store4 data i (SInt v);; mret vl
       else
         '(v, vl) ← va_arg_unsigned vl;
         store4 data i (SUInt v);; mret vl) vl w
    = Done (drop n vl)
        (set_heap
           <[data := pre ++ encode (scalar_of_slot type <$> take n vl)
                         ++ drop (4 * n) rest]> w).
Proof.
  induction n as [|n IH]; intros i vl w pre rest Hblk Hi Hpre Hrest Hvl Hok.
  - cbn. unfold set_heap. rewrite insert_id by done. by destruct w.
  - destruct vl as [|s vl]; [cbn in Hvl; lia|].
    apply Forall_cons in Hok as [Hs Hok]. cbn in Hvl.
    assert (Hfit : (0 <=? i)
                   && (Z.to_nat (4 * i) + 4 <=? length (pre ++ rest))%nat = true).
    { apply andb_true_iff. split; [by apply Z.leb_le|].
      apply Nat.leb_le. rewrite length_app. lia. }
    assert (Hput : ∀ v,
      store4 data i v w
      = Done tt (set_heap <[data := (pre ++ fragments v) ++ drop 4 rest]> w)).
    { intros v. unfold store4. rewrite Hblk, Hfit, <- Hpre.
      rewrite take_app_length, drop_app_add.
      by rewrite <- app_assoc. }
    assert (Hnext : ∀ v,
      for_loop n (i + 1) (λ i vl,
         if type =? GL_FLOAT then
           '(d, vl) ← va_arg_double vl;
           store4 data i (SFloat (GLfloat_of_double d));; mret vl
         else if type =? GL_INT then
           '(v, vl) ← va_arg_int vl;
           store4 data i (SInt v);; mret vl
         else
           '(v, vl) ← va_arg_unsigned vl;
           store4 data i (SUInt v);; mret vl) vl
        (set_heap <[data := (pre ++ fragments v) ++ drop 4 rest]> w)
      = Done (drop (S n) (s :: vl))
          (set_heap
             <[data := pre ++ encode (v :: (scalar_of_slot type <$> take n vl))
                           ++ drop (4 * S n) rest]> w)).
    { intros v.
      rewrite (IH (i + 1) vl _ (pre ++ fragments v) (drop 4 rest));
        [| by cbn; rewrite lookup_insert_eq | lia
         | rewrite length_app; cbn; lia | rewrite length_drop; lia | lia | done].
      cbn [drop]. f_equal. unfold set_heap. cbn [disk streams heap objs trace].
      rewrite insert_insert_eq, drop_drop.
      replace (4 + 4 * n)%nat with (4 * S n)%nat by lia.
      by rewrite <- !app_assoc. }
    cbn [for_loop take fmap list_fmap]. rewrite bind_run.
    destruct s as [d | z]; cbn in Hs.
    + subst type. rewrite Z.eqb_refl in *. cbn [va_arg_double].
      rewrite bind_run. cbn [mret M_ret].
      rewrite bind_run, Hput. cbn [mret M_ret]. apply Hnext.
    + apply Z.eqb_neq in Hs. rewrite Hs in *.
      unfold scalar_of_slot at 1.
      destruct (type =? GL_INT) eqn:Hint.
      * cbn [va_arg_int]. rewrite bind_run. cbn [mret M_ret].
        rewrite bind_run, Hput. cbn [mret M_ret]. apply Hnext.
      * cbn [va_arg_unsigned]. rewrite bind_run. cbn [mret M_ret].
        rewrite bind_run, Hput. cbn [mret M_ret]. apply Hnext.
Qed.

End Arguments.

(** The array [glcSetUniformx] uploads is the image of its first
    [dimension] variadic arguments, in order, each converted to the
    selected type; further arguments are ignored, the upload count is 1,
    and the buffer is freed before the call returns 1. *)
Theorem glcSetUniformx_uploads_arguments {hdr : GLHeader} {env : Environment}
    (w : World) (program : Z) (name : string) (type dimension : Z)
    (vl : list va_slot) :
  1 ≤ dimension ≤ 4 →
  drv_GetUniformLocation (trace w) program name ≠ -1 →
  alloc_ok (heap w) (4 * dimension) = true →
  (Z.to_nat dimension ≤ length vl)%nat →
  Forall (slot_ok type) vl →
  ∃ fn,
    glcSetUniformx program name type dimension vl w
    = Done 1
        (mkWorld (disk w) (streams w) (heap w) (objs w)
           (trace w ++
              [GetUniformLocation program name
                 (drv_GetUniformLocation (trace w) program name);
               UseProgram program;
               Malloc (4 * dimension) (fresh_ptr (heap w));
               Uniform fn (drv_GetUniformLocation (trace w) program name)
                 1 (fresh_ptr (heap w))
                 (Some (encode (scalar_of_slot type
                                  <$> take (Z.to_nat dimension) vl)));
               Free (fresh_ptr (heap w))]))
    ∧ fn_dim fn = dimension.
Proof.
  intros Hdim Hloc Halloc Hlen Hvl. unfold glcSetUniformx.
  rewrite dimension_accepted by done.
  rewrite bind_run. unfold glGetUniformLocation at 1. cbv zeta.
  rewrite (proj2 (Z.eqb_neq _ _) Hloc).
  rewrite bind_run. unfold glUseProgram at 1.
  replace (if type =? GL_FLOAT then sizeof_GLfloat * dimension
           else if type =? GL_INT then sizeof_GLint * dimension
           else sizeof_GLuint * dimension)
    with (4 * dimension)
    by (by destruct (type =? GL_FLOAT), (type =? GL_INT)).
  rewrite bind_run. unfold malloc at 1. cbn [heap log].
  rewrite Halloc. cbv zeta.
  pose proof (proj2 (Z.eqb_neq _ _) (fresh_ptr_not_null (heap w))) as Hdata.
  rewrite Hdata.
  set (location := drv_GetUniformLocation (trace w) program name).
  set (data := fresh_ptr (heap w)) in *.
  set (w1 := log (Malloc (4 * dimension) data) _).
  assert (Hblk : heap w1 !! data
                 = Some ([] ++ replicate (Z.to_nat (4 * dimension)) MUndef)).
  { cbn. apply lookup_insert_eq. }
  rewrite bind_run.
  rewrite (fill_loop_contents type data (Z.to_nat dimension) 0 vl w1 _ _ Hblk);
    [| lia | reflexivity | rewrite length_replicate; lia | done | done].
  rewrite drop_ge by (rewrite length_replicate; lia).
  rewrite app_nil_l, app_nil_r.
  rewrite bind_run.
  destruct (dispatch_run type dimension location 1 data
              (set_heap
                 <[data := encode (scalar_of_slot type
                                     <$> take (Z.to_nat dimension) vl)]> w1)
              Hdim) as (fn & Hrun & Hd & _).
  exists fn. split; [|done].
  rewrite Hrun. clear Hrun.
  rewrite bind_run. unfold free. rewrite Hdata.
  cbn [heap log set_heap]. rewrite !lookup_insert_eq.
  cbn [mret M_ret]. f_equal. unfold log, set_heap. cbn.
  rewrite insert_insert_eq, delete_insert_eq,
    (delete_id (heap w)) by apply fresh_ptr_fresh.
  by rewrite <- !app_assoc.
Qed.

Lemma glcSetUniformx_uploads_arguments_witness :
  ∃ fn,
    glcSetUniformx (hdr := khronos) (env := test_driver (-1) (-1) [("color", 5)])
      3 "color" (@GL_INT khronos) 3
      [VaInt 1; VaInt (-2); VaInt 3; VaInt 99] test_world
    = Done 1
        (mkWorld (disk test_world) (streams test_world) (heap test_world)
           (objs test_world)
           (trace test_world ++
              [GetUniformLocation 3 "color" 5;
               UseProgram 3;
               Malloc (4 * 3) (fresh_ptr (heap test_world));
               Uniform fn 5 1 (fresh_ptr (heap test_world))
                 (Some (encode [SInt 1; SInt (-2); SInt 3]));
               Free (fresh_ptr (heap test_world))]))
    ∧ fn_dim fn = 3.
Proof.
  apply (glcSetUniformx_uploads_arguments (hdr := khronos)
           (env := test_driver (-1) (-1) [("color", 5)])
           test_world 3 "color" (@GL_INT khronos) 3
           [VaInt 1; VaInt (-2); VaInt 3; VaInt 99]).
  - lia.
  - discriminate.
  - reflexivity.
  - cbn. lia.
  - repeat constructor; discriminate.
Defined.

(** * Further properties of [glcMakeShaderProgram] *)

Lemma filter_read_calls (p : Call → bool) (stream source : Z)
    (bytes : list byte) :
  (∀ s r, p (Fgetc s r) = false) →
  (∀ s o wh r, p (Fseek s o wh r) = false) →
  (∀ n sz r, p (Calloc n sz r) = false) →
  (∀ q sz n s r, p (Fread q sz n s r) = false) →
  List.filter p (read_calls stream source bytes) = [].
Proof.
  intros Hgetc Hseek Hcalloc Hread. unfold read_calls.
  rewrite List.filter_app. cbn. rewrite Hgetc, Hseek, Hcalloc, Hread.
  rewrite app_nil_r.
  induction bytes as [|b bytes IH]; [done|]. cbn. by rewrite Hgetc.
Qed.

(** Computes a [filter] over the trace of an outcome. *)
Ltac filter_trace :=
  repeat progress
    (repeat (rewrite List.filter_app || rewrite filter_read_calls by done);
     cbn [List.filter compile_calls app is_diagnostic is_source is_fopen
          creates_program]).


(** [glcMakeShaderProgram] returns 1 or -1: 1 exactly when no call of the
    run reported a failure, and then it prints nothing; -1 after exactly
    one diagnostic. *)
Theorem build_result {hdr : GLHeader} {env : Environment}
    (fuel : nat) (program : Z) (vertexShaderPath fragmentShaderPath : string)
    (w : World) :
  fits fuel w vertexShaderPath →
  fits fuel w fragmentShaderPath →
  is_Some (objs w !! program) →
  ∃ r w' t,
    glcMakeShaderProgram fuel program vertexShaderPath fragmentShaderPath w
    = Done r w'
    ∧ trace w' = trace w ++ t
    ∧ (r = 1 ∧ existsb call_failed t = false ∧ diagnostics t = []
       ∨ r = -1 ∧ existsb call_failed t = true
         ∧ length (diagnostics t) = 1%nat).
Proof.
  intros Hv Hf Hp.
  destruct (glcMakeShaderProgram_outcome fuel program vertexShaderPath
              fragmentShaderPath w Hv Hf Hp) as (r & w' & Hrun & Hout).
  exists r, w'.
  destruct Hout; eexists; (split; [exact Hrun|]); (split; [reflexivity|]);
    unfold diagnostics; scan_trace; filter_trace;
    [right | right | right | right | right | right | right | right | left];
    by repeat split.
Qed.

Lemma build_result_witness :
  ∃ r w' t,
    glcMakeShaderProgram (hdr := khronos) (env := test_driver 1 (-1) [])
      10 100 "v.glsl" "f.glsl" test_world = Done r w'
    ∧ trace w' = trace test_world ++ t
    ∧ (r = 1 ∧ existsb call_failed t = false ∧ diagnostics t = []
       ∨ r = -1 ∧ existsb call_failed t = true
         ∧ length (diagnostics t) = 1%nat).
Proof.
  apply (build_result (hdr := khronos) (env := test_driver 1 (-1) [])
           10 100 "v.glsl" "f.glsl" test_world).
  - by apply test_world_fits.
  - by apply test_world_fits.
  - eexists. reflexivity.
Defined.

(** Once [glCreateProgram] has been called, and it is called at most once,
    [*program] holds what it returned, also when the run then fails: 0
    after a failed creation, the name of the unlinked program after a
    failed link. *)
Theorem program_handle_stored {hdr : GLHeader} {env : Environment}
    (fuel : nat) (program : Z) (vertexShaderPath fragmentShaderPath : string)
    (w : World) :
  fits fuel w vertexShaderPath →
  fits fuel w fragmentShaderPath →
  is_Some (objs w !! program) →
  ∃ r w' t,
    glcMakeShaderProgram fuel program vertexShaderPath fragmentShaderPath w
    = Done r w'
    ∧ trace w' = trace w ++ t
    ∧ (List.filter creates_program t = [] ∧ r = -1 ∧ objs w' = objs w
       ∨ ∃ handle,
           List.filter creates_program t = [CreateProgram handle]
           ∧ objs w' = <[program := handle]> (objs w)
           ∧ (handle = 0 → r = -1)
           ∧ (r = -1 → handle ≠ 0 → GetProgramiv handle GL_LINK_STATUS 0 ∈ t)).
Proof.
  intros Hv Hf Hp.
  destruct (glcMakeShaderProgram_outcome fuel program vertexShaderPath
              fragmentShaderPath w Hv Hf Hp) as (r & w' & Hrun & Hout).
  exists r, w'.
  destruct Hout; eexists; (split; [exact Hrun|]); (split; [reflexivity|]);
    filter_trace.
  1-6: by left.
  - right. exists 0. do 3 (split; [done|]). by intros _ ?.
  - right. exists handle. do 3 (split; [done|]).
    intros _ _. unfold compile_calls. set_solver.
  - right. exists handle. do 2 (split; [done|]). split; [done|].
    by intros ?.
Qed.

Lemma program_handle_stored_witness :
  ∃ w',
    glcMakeShaderProgram (hdr := khronos) (env := test_driver (-1) 2 [])
      10 100 "v.glsl" "f.glsl" test_world = Done (-1) w'
    ∧ objs w' !! 100 = Some 3.
Proof.
  destruct (program_handle_stored (hdr := khronos)
              (env := test_driver (-1) 2 []) 10 100 "v.glsl" "f.glsl" test_world)
    as (r & w' & t & Hrun & Ht & Hcases).
  - by apply test_world_fits.
  - by apply test_world_fits.
  - eexists. reflexivity.
  - pose proof Hrun as Hrun'. vm_compute in Hrun'.
    injection Hrun' as Hr Hw. subst r w'.
    eexists. split; [exact Hrun | reflexivity].
Defined.


Lemma edge_world_fits (env : Environment) (path : string) :
  (∀ h n, @alloc_ok env h n = true) →
  fits 10 edge_world path.
Proof.
  intros Halloc bytes Hb. rewrite Halloc.
  assert (length bytes ≤ 3)%nat as Hlen.
  { cbn in Hb.
    destruct (decide (path = "empty.glsl")) as [-> | Hv];
      [rewrite lookup_insert_eq in Hb; simplify_eq; cbn; lia|].
    rewrite lookup_insert_ne in Hb by done.
    destruct (decide (path = "nul.glsl")) as [-> | Hf];
      [rewrite lookup_insert_eq in Hb; by simplify_eq|].
    by rewrite lookup_insert_ne in Hb. }
  unfold INT_MAX. repeat split; lia.
Qed.


(** Whenever the vertex file opens, the run starts with the two [fopen]
    calls, vertex first, and opens nothing after them: both files are
    taken before a byte is read or the driver is called. *)
Theorem files_opened_up_front {hdr : GLHeader} {env : Environment}
    (fuel : nat) (program : Z) (vertexShaderPath fragmentShaderPath : string)
    (w : World) :
  fits fuel w vertexShaderPath →
  fits fuel w fragmentShaderPath →
  is_Some (objs w !! program) →
  is_Some (disk w !! vertexShaderPath) →
  ∃ r w' vertexFile fragmentFile rest,
    glcMakeShaderProgram fuel program vertexShaderPath fragmentShaderPath w
    = Done r w'
    ∧ trace w'
      = trace w ++
          Fopen vertexShaderPath "rb" vertexFile
          :: Fopen fragmentShaderPath "rb" fragmentFile :: rest
    ∧ vertexFile ≠ NULL
    ∧ List.filter is_fopen rest = [].
Proof.
  intros Hv Hf Hp [vbytes Hvb].
  destruct (glcMakeShaderProgram_outcome fuel program vertexShaderPath
              fragmentShaderPath w Hv Hf Hp) as (r & w' & Hrun & Hout).
  exists r, w'.
  destruct Hout; simplify_eq; eexists vertexFile, _, _;
    (split; [exact Hrun|]); (split; [reflexivity|]); (split; [done|]);
    by filter_trace.
Qed.

Lemma files_opened_up_front_witness :
  ∃ r w' vertexFile fragmentFile rest,
    glcMakeShaderProgram (hdr := khronos) (env := test_driver 0 (-1) [])
      10 100 "v.glsl" "f.glsl" test_world = Done r w'
    ∧ trace w'
      = trace test_world ++
          Fopen "v.glsl" "rb" vertexFile
          :: Fopen "f.glsl" "rb" fragmentFile :: rest
    ∧ vertexFile ≠ NULL
    ∧ List.filter is_fopen rest = [].
Proof.
  apply (files_opened_up_front (hdr := khronos) (env := test_driver 0 (-1) [])
           10 100 "v.glsl" "f.glsl" test_world).
  - by apply test_world_fits.
  - by apply test_world_fits.
  - eexists. reflexivity.
  - eexists. reflexivity.
Defined.

(** A run changes neither the disk nor the heap and leaves [program]
    valid, so what it needed to be defined still holds when it returns:
    the call can be repeated, and the second call returns too. *)
Theorem build_repeatable {hdr : GLHeader} {env : Environment}
    (fuel : nat) (program : Z) (vertexShaderPath fragmentShaderPath : string)
    (w : World) :
  fits fuel w vertexShaderPath →
  fits fuel w fragmentShaderPath →
  is_Some (objs w !! program) →
  ∃ r w',
    glcMakeShaderProgram fuel program vertexShaderPath fragmentShaderPath w
    = Done r w'
    ∧ disk w' = disk w
    ∧ fits fuel w' vertexShaderPath
    ∧ fits fuel w' fragmentShaderPath
    ∧ is_Some (objs w' !! program)
    ∧ ∃ r' w'',
        glcMakeShaderProgram fuel program vertexShaderPath fragmentShaderPath w'
        = Done r' w''.
Proof.
  intros Hv Hf Hp.
  destruct (glcMakeShaderProgram_outcome fuel program vertexShaderPath
              fragmentShaderPath w Hv Hf Hp) as (r & w' & Hrun & Hout).
  exists r, w'. split; [exact Hrun|].
  assert (Hsame : disk w' = disk w ∧ heap w' = heap w
                  ∧ is_Some (objs w' !! program)).
  { destruct Hout; cbn; repeat split; try done;
      rewrite lookup_insert_eq; by eexists. }
  destruct Hsame as (Hdisk & Hheap & Hp').
  assert (Hfits : ∀ path, fits fuel w path → fits fuel w' path).
  { intros path Hpath bytes Hb. rewrite Hdisk in Hb. rewrite Hheap.
    by apply Hpath. }
  do 4 (split; [by auto|]).
  destruct (glcMakeShaderProgram_outcome fuel program vertexShaderPath
              fragmentShaderPath w' (Hfits _ Hv) (Hfits _ Hf) Hp')
    as (r' & w'' & Hrun' & _).
  by exists r', w''.
Qed.

Lemma build_repeatable_witness :
  ∃ r w',
    glcMakeShaderProgram (hdr := khronos) (env := test_driver (-1) (-1) [])
      10 100 "v.glsl" "f.glsl" test_world = Done r w'
    ∧ disk w' = disk test_world
    ∧ fits (env := test_driver (-1) (-1) []) 10 w' "v.glsl"
    ∧ fits (env := test_driver (-1) (-1) []) 10 w' "f.glsl"
    ∧ is_Some (objs w' !! 100)
    ∧ ∃ r' w'',
        glcMakeShaderProgram (hdr := khronos) (env := test_driver (-1) (-1) [])
          10 100 "v.glsl" "f.glsl" w' = Done r' w''.
Proof.
  apply (build_repeatable (hdr := khronos) (env := test_driver (-1) (-1) [])
           10 100 "v.glsl" "f.glsl" test_world).
  - by apply test_world_fits.
  - by apply test_world_fits.
  - eexists. reflexivity.
Defined.

Lemma glcMakeShaderProgram_releases_witness :
  ∃ r w' t,
    glcMakeShaderProgram (hdr := khronos) (env := test_driver (-1) 0 [])
      10 100 "v.glsl" "f.glsl" test_world = Done r w'
    ∧ trace w' = trace test_world ++ t
    ∧ streams w' = streams test_world
    ∧ heap w' = heap test_world
    ∧ (r = -1 → existsb deletes_shader t = false).
Proof.
  apply (glcMakeShaderProgram_releases (hdr := khronos)
           (env := test_driver (-1) 0 []) 10 100 "v.glsl" "f.glsl" test_world).
  - by apply test_world_fits.
  - by apply test_world_fits.
  - eexists. reflexivity.
Defined.

Lemma vertex_buffer_size_witness :
  ∃ r w' vertexFile source,
    glcMakeShaderProgram (hdr := khronos) (env := test_driver (-1) (-1) [])
      10 100 "empty.glsl" "nul.glsl" edge_world = Done r w'
    ∧ Calloc (Z.of_nat (length (@nil byte)) + 2) sizeof_char source ∈ trace w'
    ∧ Fread source sizeof_char (Z.of_nat (length (@nil byte)) + 1) vertexFile
        (Z.of_nat (length (@nil byte))) ∈ trace w'.
Proof.
  apply (vertex_buffer_size (hdr := khronos) (env := test_driver (-1) (-1) [])
           10 100 "empty.glsl" "nul.glsl" edge_world [] [x61; x00; x62]).
  - by apply edge_world_fits.
  - by apply edge_world_fits.
  - eexists. reflexivity.
  - reflexivity.
  - reflexivity.
Defined.

Section Refused.
Context {hdr : GLHeader} {env : Environment}.

(** The four statements that read a file, when the allocator refuses the
    buffer: the null pointer goes to [fread] unchecked. *)
Lemma read_source_refused {A} (fuel : nat) (stream : Z) (bytes : list byte)
    (rest : Z → M A) (w : World) :
  streams w !! stream = Some (mkFILE bytes 0) →
  (length bytes < fuel)%nat →
  Z.of_nat (length bytes) + 2 ≤ INT_MAX →
  alloc_ok (heap w) (Z.of_nat (length bytes) + 2) = false →
  heap w !! NULL = None →
  (length ← do_while fuel (λ length, mret (wrap_int (length + 1)))
              (c ← fgetc stream; mret (negb (c =? EOF))) 0;
   fseek stream 0 SEEK_SET;;
   source ← calloc (wrap_int (length + 1)) sizeof_char;
   fread source sizeof_char length stream;;
   rest source) w
  = Undefined.
Proof.
  intros Hs Hfuel Hsize Halloc Hnull.
  set (N := Z.of_nat (length bytes)) in *.
  rewrite bind_run.
  rewrite (count_bytes stream bytes (length bytes) fuel 0 0 w)
    by (done || lia).
  rewrite drop_0.
  rewrite bind_run. unfold fseek at 1. cbn [streams].
  rewrite lookup_insert_eq. cbn [pos content Z.eqb SEEK_SET orb negb].
  change (0 + 0 <? 0) with false. change (Z.to_nat (0 + 0)) with 0%nat.
  cbn [orb negb].
  world_nf.
  rewrite insert_insert_eq.
  rewrite bind_run. unfold calloc at 1. world_nf.
  replace (0 + Z.of_nat (length bytes) + 1) with (N + 1) by lia.
  rewrite (wrap_int_small (N + 1 + 1)) by (unfold INT_MAX in *; lia).
  rewrite size_t_of_int_small by lia.
  replace ((N + 1 + 1) * sizeof_char) with (N + 2) by (unfold sizeof_char; lia).
  rewrite Halloc.
  rewrite bind_run. unfold fread at 1. world_nf.
  by rewrite lookup_insert_eq, Hnull.
Qed.

End Refused.

(** [glcMakeShaderProgram] does not check what [calloc] returns: when both
    files open and the allocator refuses the buffer for the vertex source,
    the null pointer is passed to [fread] and the behaviour is
    undefined. *)
Theorem vertex_allocation_unchecked {hdr : GLHeader} {env : Environment}
    (fuel : nat) (program : Z) (vertexShaderPath fragmentShaderPath : string)
    (w : World) (vbytes : list byte) :
  disk w !! vertexShaderPath = Some vbytes →
  is_Some (disk w !! fragmentShaderPath) →
  (length vbytes < fuel)%nat →
  Z.of_nat (length vbytes) + 2 ≤ INT_MAX →
  heap w !! NULL = None →
  alloc_ok (heap w) (Z.of_nat (length vbytes) + 2) = false →
  glcMakeShaderProgram fuel program vertexShaderPath fragmentShaderPath w
  = Undefined.
Proof.
  intros Hv [fbytes Hf] Hfuel Hsize Hnull Halloc.
  unfold glcMakeShaderProgram. cbv zeta.
  rewrite bind_run. unfold fopen at 1. rewrite Hv. cbv zeta.
  pose proof (fresh_ptr_not_null (streams w)) as Hvf.
  rewrite (proj2 (Z.eqb_neq _ _) Hvf).
  rewrite bind_run. unfold fopen at 1. world_nf. rewrite Hf. cbv zeta.
  rewrite (proj2 (Z.eqb_neq _ _) (fresh_ptr_not_null _)).
  world_nf.
  rewrite (read_source_refused fuel (fresh_ptr (streams w)) vbytes);
    [done | | done..].
  cbn. rewrite lookup_insert_ne, lookup_insert_eq; [done|].
  intros E.
  pose proof (fresh_ptr_fresh
                (<[fresh_ptr (streams w) := mkFILE vbytes 0]> (streams w)))
    as Hfresh.
  rewrite E, lookup_insert_eq in Hfresh. discriminate.
Qed.

Lemma vertex_allocation_unchecked_witness :
  glcMakeShaderProgram (hdr := khronos)
    (env := out_of_memory (test_driver (-1) (-1) []))
    10 100 "v.glsl" "f.glsl" test_world
  = Undefined.
Proof.
  apply (vertex_allocation_unchecked (hdr := khronos)
           (env := out_of_memory (test_driver (-1) (-1) []))
           10 100 "v.glsl" "f.glsl" test_world [x61; x62; x63]).
  - reflexivity.
  - eexists. reflexivity.
  - cbn. lia.
  - cbn. unfold INT_MAX. lia.
  - reflexivity.
  - reflexivity.
Defined.
